(** * Shallow embedding of two driver cores

    - [DevfreqBoost]: drivers/devfreq/devfreq_boost.c, the per-device boost
      bitmask, the kick / unboost / display-blank producers and the worker
      that pushes a minimum frequency to the governor.
    - [IonPagePool]: drivers/staging/android/ion/ion_page_pool.c, the
      two-tier page pool, its global page counter and the shrinker.

    C integers are carried as [Z]; where the source computes in [int] or
    [long] the two's-complement wrap-around is written out ([wrap_int],
    [wrap_long]).  Effects are explicit: every operation takes the state it
    reads and returns the state it leaves behind. *)

From Stdlib Require Import ZArith List Bool Lia.
Import ListNotations.
Local Open Scope Z_scope.

(* ================================================================== *)
(** * Part A: devfreq_boost.c                                          *)
(* ================================================================== *)

Module DevfreqBoost.

(** enum { SCREEN_OFF, INPUT_BOOST, MAX_BOOST }: bit numbers in
    [boost_dev.state]. *)
Definition SCREEN_OFF : Z := 0.
Definition INPUT_BOOST : Z := 1.
Definition MAX_BOOST : Z := 2.

(** Atomic bit operations on an [unsigned long]. Each one is a single
    indivisible update, so a sequential model applies them one by one. *)
Definition BIT (nr : Z) : Z := Z.shiftl 1 nr.
Definition set_bit (nr : Z) (addr : Z) : Z := Z.lor addr (BIT nr).
Definition clear_bit (nr : Z) (addr : Z) : Z := Z.land addr (Z.lnot (BIT nr)).
Definition test_bit (nr : Z) (addr : Z) : bool := Z.testbit addr nr.

(** struct devfreq_dev_profile / struct devfreq, restricted to the fields
    that devfreq_boost.c reads or writes. *)
Record devfreq_dev_profile := mk_profile { freq_table : list Z }.

Record devfreq := mk_devfreq {
  profile : devfreq_dev_profile;
  min_freq : Z;
  max_freq : Z;
  is_boost_device : bool
}.

Definition set_min_freq (df : devfreq) (f : Z) : devfreq :=
  {| profile := profile df; min_freq := f; max_freq := max_freq df;
     is_boost_device := is_boost_device df |}.

Definition set_is_boost_device (df : devfreq) (v : bool) : devfreq :=
  {| profile := profile df; min_freq := min_freq df; max_freq := max_freq df;
     is_boost_device := v |}.

(** struct delayed_work: whether the work is queued and when it expires. *)
Record delayed_work := mk_dwork { pending : bool; expires : Z }.

(** mod_delayed_work(): (re)arms the timer at [jiffies + delay]; returns
    false when the work was idle and has been queued, true when it was
    pending and its timer was modified. *)
Definition mod_delayed_work (dw : delayed_work) (jiffies delay : Z)
  : bool * delayed_work :=
  (pending dw, {| pending := true; expires := jiffies + delay |}).

(** struct boost_dev.  [df = None] is the NULL handle of a device that has
    not been registered; [boost_waitq] counts the wake_up() calls issued on
    the wait queue. *)
Record boost_dev := mk_boost_dev {
  df : option devfreq;
  unboost : delayed_work;
  boost_waitq : nat;
  boost_freq : Z;
  state : Z
}.

Definition set_state (b : boost_dev) (s : Z) : boost_dev :=
  {| df := df b; unboost := unboost b; boost_waitq := boost_waitq b;
     boost_freq := boost_freq b; state := s |}.

Definition set_unboost (b : boost_dev) (dw : delayed_work) : boost_dev :=
  {| df := df b; unboost := dw; boost_waitq := boost_waitq b;
     boost_freq := boost_freq b; state := state b |}.

Definition set_df (b : boost_dev) (d : option devfreq) : boost_dev :=
  {| df := d; unboost := unboost b; boost_waitq := boost_waitq b;
     boost_freq := boost_freq b; state := state b |}.

Definition wake_up (b : boost_dev) : boost_dev :=
  {| df := df b; unboost := unboost b; boost_waitq := S (boost_waitq b);
     boost_freq := boost_freq b; state := state b |}.

(** BOOST_DEV_INIT: a statically initialised slot: no governor bound, the
    delayed work idle, an empty wait queue, a zero bitmask. *)
Definition BOOST_DEV_INIT (freq : Z) : boost_dev :=
  {| df := None; unboost := {| pending := false; expires := 0 |};
     boost_waitq := O; boost_freq := freq; state := 0 |}.

Section Driver.

(** Kconfig values and kernel helpers this file uses but does not define. *)
Variable CONFIG_DEVFREQ_INPUT_BOOST_DURATION_MS : Z.
Variable CONFIG_DEVFREQ_INPUT_BOOST_MAX_DURATION_MS : Z.
Variable msecs_to_jiffies : Z -> Z.
Variable update_devfreq : devfreq -> devfreq.

(** __devfreq_boost_kick(b, max); [jiffies] is the time of the call. *)
Definition __devfreq_boost_kick (b : boost_dev) (max : bool) (jiffies : Z)
  : boost_dev :=
  match df b with
  | None => b
  | Some _ =>
    if test_bit SCREEN_OFF (state b) then b
    else
      let '(b1, input_boost_duration) :=
        if max then
          (set_state b (clear_bit INPUT_BOOST (set_bit MAX_BOOST (state b))),
           CONFIG_DEVFREQ_INPUT_BOOST_MAX_DURATION_MS)
        else
          (set_state b (set_bit INPUT_BOOST (state b)),
           CONFIG_DEVFREQ_INPUT_BOOST_DURATION_MS) in
      let '(was_pending, dw) :=
        mod_delayed_work (unboost b1) jiffies
                         (msecs_to_jiffies input_boost_duration) in
      let b2 := set_unboost b1 dw in
      if negb was_pending then wake_up b2 else b2
  end.

(** devfreq_register_boost_device() *)
Definition devfreq_register_boost_device (b : boost_dev) (d : devfreq)
  : boost_dev :=
  set_df b (Some (set_is_boost_device d true)).

(** devfreq_unboost(): the body of the delayed work. *)
Definition devfreq_unboost (b : boost_dev) : boost_dev :=
  wake_up (set_state b (clear_bit INPUT_BOOST (clear_bit MAX_BOOST (state b)))).

(** The workqueue runs devfreq_unboost() when the timer of a pending work
    expires; the work is idle again from then on. *)
Definition unboost_fires (b : boost_dev) : boost_dev :=
  devfreq_unboost
    (set_unboost b {| pending := false; expires := expires (unboost b) |}).

(** devfreq_update_boosts(b, state).  [None] stands for the two faults of
    the C code: dereferencing a NULL [b->df], and reading [freq_table[0]]
    of a profile that has no table entry. *)
Definition devfreq_update_boosts (b : boost_dev) (st : Z) : option boost_dev :=
  match df b with
  | None => None
  | Some d =>
    let table0 := nth_error (freq_table (profile d)) 0 in
    let new_min :=
      if test_bit SCREEN_OFF st then table0
      else if test_bit MAX_BOOST st then Some (max_freq d)
      else if test_bit INPUT_BOOST st
           then Some (Z.min (boost_freq b) (max_freq d))
           else table0 in
    match new_min with
    | None => None
    | Some f => Some (set_df b (Some (update_devfreq (set_min_freq d f))))
    end
  end.

(** One round of the loop of devfreq_boost_thread(): the wait_event()
    condition, then the body. *)
Inductive thread_round :=
| Waiting
| Stopped
| Updated (old_state : Z) (b : boost_dev)
| Faulted.

Definition devfreq_boost_thread (old_state : Z) (b : boost_dev)
           (kthread_should_stop : bool) : thread_round :=
  let curr_state := state b in
  if negb (curr_state =? old_state) then
    match devfreq_update_boosts b curr_state with
    | Some b' => Updated curr_state b'
    | None => Faulted
    end
  else if kthread_should_stop then Stopped
  else Waiting.

(** msm_drm_notifier_cb(), the body of its loop for one device. *)
Definition msm_drm_blank_one (b : boost_dev) (unblank : bool) : boost_dev :=
  if unblank then set_state b (clear_bit SCREEN_OFF (state b))
  else wake_up (set_state b (set_bit SCREEN_OFF (state b))).

(** The producers that can touch one device, and a run of them. *)
Inductive event :=
| Kick (max : bool) (jiffies : Z)
| Register (d : devfreq)
| UnboostExpired
| Blank (unblank : bool).

Definition step (b : boost_dev) (e : event) : boost_dev :=
  match e with
  | Kick max j => __devfreq_boost_kick b max j
  | Register d => devfreq_register_boost_device b d
  | UnboostExpired => unboost_fires b
  | Blank u => msm_drm_blank_one b u
  end.

Definition run (b : boost_dev) (es : list event) : boost_dev :=
  fold_left step es b.

(** ** The driver as a whole *)

(** Further constants of headers this file includes. *)
Variable DEVFREQ_MAX : nat.
Variable MSM_DRM_EARLY_EVENT_BLANK : Z.
Variable MSM_DRM_BLANK_UNBLANK : Z.
Variable ENOMEM : Z.

(** struct df_boost_drv is carried as its [devices] array.  [d->devices +
    device] is a slot of that array; an index past its end is a fault
    ([None]). *)
Fixpoint store_dev (d : list boost_dev) (i : nat) (b : boost_dev)
  : list boost_dev :=
  match d, i with
  | [], _ => []
  | _ :: rest, O => b :: rest
  | x :: rest, S i' => x :: store_dev rest i' b
  end.

Definition on_device (d : list boost_dev) (device : nat)
           (f : boost_dev -> boost_dev) : option (list boost_dev) :=
  match nth_error d device with
  | None => None
  | Some b => Some (store_dev d device (f b))
  end.

(** devfreq_boost_kick(device, max) *)
Definition devfreq_boost_kick (d : list boost_dev) (device : nat)
           (max : bool) (jiffies : Z) : option (list boost_dev) :=
  on_device d device (fun b => __devfreq_boost_kick b max jiffies).

(** devfreq_register_boost_device(device, df), on the array. *)
Definition register_boost_device_at (d : list boost_dev) (device : nat)
           (dfq : devfreq) : option (list boost_dev) :=
  on_device d device (fun b => devfreq_register_boost_device b dfq).

(** for (i = 0; i < DEVFREQ_MAX; i++) { b = d->devices + i; body }, with
    [todo] turns left and [i] the running index. *)
Fixpoint for_each_device (todo i : nat) (body : boost_dev -> boost_dev)
         (d : list boost_dev) : option (list boost_dev) :=
  match todo with
  | O => Some d
  | S todo' =>
    match on_device d i body with
    | None => None
    | Some d' => for_each_device todo' (S i) body d'
    end
  end.

(** devfreq_boost_input_event(): type, code and value are not looked at. *)
Definition devfreq_boost_input_event (d : list boost_dev) (jiffies : Z)
  : option (list boost_dev) :=
  for_each_device DEVFREQ_MAX 0
                  (fun b => __devfreq_boost_kick b false jiffies) d.

(** msm_drm_notifier_cb(); it returns NOTIFY_OK on every path. *)
Definition msm_drm_notifier_cb (d : list boost_dev) (action : Z) (blank : Z)
  : option (list boost_dev) :=
  if negb (action =? MSM_DRM_EARLY_EVENT_BLANK) then Some d
  else for_each_device DEVFREQ_MAX 0
         (fun b => msm_drm_blank_one b (blank =? MSM_DRM_BLANK_UNBLANK)) d.

(** What devfreq_boost_input_connect() and _disconnect() ask of the
    allocator and of the input core, in call order, with the outcome of
    the calls that can fail. *)
Inductive input_call :=
| Kzalloc (ok : bool)
| Kfree
| Input_register_handle (ret : Z)
| Input_unregister_handle
| Input_open_device (ret : Z)
| Input_close_device.

(** devfreq_boost_input_connect(): the return value and the calls made. *)
Definition devfreq_boost_input_connect (kzalloc_ok : bool)
           (register_ret open_ret : Z) : Z * list input_call :=
  if negb kzalloc_ok then (- ENOMEM, [Kzalloc false])
  else if negb (register_ret =? 0) then
    (register_ret,
     [Kzalloc true; Input_register_handle register_ret; Kfree])
  else if negb (open_ret =? 0) then
    (open_ret,
     [Kzalloc true; Input_register_handle register_ret;
      Input_open_device open_ret; Input_unregister_handle; Kfree])
  else
    (0, [Kzalloc true; Input_register_handle register_ret;
         Input_open_device open_ret]).

(** devfreq_boost_input_disconnect() *)
Definition devfreq_boost_input_disconnect : list input_call :=
  [Input_close_device; Input_unregister_handle; Kfree].

(** What a handle holds after a sequence of such calls: whether its memory
    is allocated, whether it is registered, whether its device is open. *)
Record handle_state := mk_handle_state {
  allocated : bool; registered : bool; opened : bool
}.

Definition handle_step (h : handle_state) (c : input_call) : handle_state :=
  match c with
  | Kzalloc ok =>
    {| allocated := ok; registered := registered h; opened := opened h |}
  | Kfree =>
    {| allocated := false; registered := registered h; opened := opened h |}
  | Input_register_handle ret =>
    {| allocated := allocated h; registered := ret =? 0;
       opened := opened h |}
  | Input_unregister_handle =>
    {| allocated := allocated h; registered := false; opened := opened h |}
  | Input_open_device ret =>
    {| allocated := allocated h; registered := registered h;
       opened := ret =? 0 |}
  | Input_close_device =>
    {| allocated := allocated h; registered := registered h;
       opened := false |}
  end.

Definition handle_after (cs : list input_call) : handle_state :=
  fold_left handle_step cs
            {| allocated := false; registered := false; opened := false |}.

(** What devfreq_boost_init() asks of the kernel, in call order.
    kthread_run_perf_critical() yields a task or an ERR_PTR carrying
    -errno with errno at least 1. *)
Inductive kthread_result :=
| Task_started
| Task_err (errno : positive).

Inductive init_call :=
| Kthread_run (i : nat) (started : bool)
| Kthread_stop (i : nat)
| Input_register_handler (ret : Z)
| Input_unregister_handler
| Msm_drm_register_client (ret : Z).

(** The thread-creating loop of devfreq_boost_init(): the index at which
    it is left, the error it leaves with if any, and the calls so far. *)
Fixpoint run_kthreads (todo i : nat) (kthread_run : nat -> kthread_result)
         (log : list init_call) : nat * option Z * list init_call :=
  match todo with
  | O => (i, None, log)
  | S todo' =>
    match kthread_run i with
    | Task_err errno =>
      (i, Some (Z.neg errno), log ++ [Kthread_run i false])
    | Task_started =>
      run_kthreads todo' (S i) kthread_run (log ++ [Kthread_run i true])
    end
  end.

(** stop_kthreads: while (i--) kthread_stop(thread[i]); *)
Fixpoint stop_kthreads (i : nat) (log : list init_call) : list init_call :=
  match i with
  | O => log
  | S i' => stop_kthreads i' (log ++ [Kthread_stop i'])
  end.

(** devfreq_boost_init(): the return value and the calls made. *)
Definition devfreq_boost_init (kthread_run : nat -> kthread_result)
           (handler_ret client_ret : Z) : Z * list init_call :=
  match run_kthreads DEVFREQ_MAX 0 kthread_run [] with
  | (i, Some ret, log) => (ret, stop_kthreads i log)
  | (i, None, log) =>
    let log := log ++ [Input_register_handler handler_ret] in
    if negb (handler_ret =? 0) then (handler_ret, stop_kthreads i log)
    else
      let log := log ++ [Msm_drm_register_client client_ret] in
      if negb (client_ret =? 0) then
        (client_ret, stop_kthreads i (log ++ [Input_unregister_handler]))
      else (0, log)
  end.

(** What is left running or registered after a sequence of such calls. *)
Record init_state := mk_init_state {
  live_kthreads : list nat;
  handler_registered : bool;
  notifier_registered : bool
}.

Definition init_step (s : init_state) (c : init_call) : init_state :=
  match c with
  | Kthread_run i started =>
    {| live_kthreads :=
         if started then live_kthreads s ++ [i] else live_kthreads s;
       handler_registered := handler_registered s;
       notifier_registered := notifier_registered s |}
  | Kthread_stop i =>
    {| live_kthreads := remove Nat.eq_dec i (live_kthreads s);
       handler_registered := handler_registered s;
       notifier_registered := notifier_registered s |}
  | Input_register_handler ret =>
    {| live_kthreads := live_kthreads s;
       handler_registered := ret =? 0;
       notifier_registered := notifier_registered s |}
  | Input_unregister_handler =>
    {| live_kthreads := live_kthreads s;
       handler_registered := false;
       notifier_registered := notifier_registered s |}
  | Msm_drm_register_client ret =>
    {| live_kthreads := live_kthreads s;
       handler_registered := handler_registered s;
       notifier_registered := ret =? 0 |}
  end.

Definition init_after (cs : list init_call) : init_state :=
  fold_left init_step cs
            {| live_kthreads := []; handler_registered := false;
               notifier_registered := false |}.

End Driver.

(** A governor with a two-entry table and a device slot bound to it, used
    to run the driver on concrete inputs. *)
Definition sample_devfreq : devfreq :=
  {| profile := {| freq_table := [100; 800] |};
     min_freq := 100; max_freq := 800; is_boost_device := false |}.

Definition sample_dev : boost_dev :=
  devfreq_register_boost_device (BOOST_DEV_INIT 300) sample_devfreq.

End DevfreqBoost.

(* ================================================================== *)
(** * Part B: ion_page_pool.c                                          *)
(* ================================================================== *)

Module IonPagePool.

(** Two's-complement wrap-around of [int] (32 bits) and [long] (64 bits);
    the kernel is built with -fno-strict-overflow, so signed arithmetic
    wraps. *)
Definition wrap_int (z : Z) : Z := (z + 2 ^ 31) mod 2 ^ 32 - 2 ^ 31.
Definition wrap_long (z : Z) : Z := (z + 2 ^ 63) mod 2 ^ 64 - 2 ^ 63.

Definition INT_MAX : Z := 2 ^ 31 - 1.
Definition LONG_MIN : Z := - 2 ^ 63.
Definition LONG_MAX : Z := 2 ^ 63 - 1.

(** struct page as the pool sees it: an identity and its memory class. *)
Record page := mk_page { pfn : Z; PageHighMem : bool }.

(** struct ion_page_pool.  The two lists are the [lru] chains hanging off
    [high_items] and [low_items], first entry first.  The spinlock is not a
    field: spin_lock() always ends up holding it, and the outcome of a
    spin_trylock() is an input of the operation that tries. *)
Record ion_page_pool := mk_pool {
  high_count : Z;
  low_count : Z;
  high_items : list page;
  low_items : list page;
  gfp_mask : Z;
  order : Z;
  cached : bool
}.

(** What lives outside a pool: the file-static [nr_total_pages], the
    NR_INDIRECTLY_RECLAIMABLE_BYTES node counter (one node), and the calls
    made to the page allocator, oldest first. *)
Inductive buddy_call :=
| Alloc_pages (gfp : Z) (ord : Z)
| Free_pages (pg : page) (ord : Z).

Record globals := mk_globals {
  nr_total_pages : Z;
  nr_indirectly_reclaimable_bytes : Z;
  buddy_log : list buddy_call
}.

(** Ways the C code stops instead of returning: BUG_ON(!pool) in alloc,
    the BUG_ON() on a tier count in remove, and list_first_entry() taken
    on an empty list (a bogus pointer in C).  [Unfinished] belongs to the
    model only: the loop of the shrinker is unrolled a bounded number of
    times, and [shrink_never_unfinished] shows the bound is never
    reached. *)
Inductive fault :=
| BUG_ON_pool
| BUG_ON_count
| Empty_list_entry
| Unfinished.

Inductive result (A : Type) :=
| Ok (a : A)
| Fault (f : fault).
Arguments Ok {A} a.
Arguments Fault {A} f.

Definition bind {A B : Type} (r : result A) (k : A -> result B) : result B :=
  match r with
  | Ok a => k a
  | Fault f => Fault f
  end.

Notation "' p <- r ;; k" := (bind r (fun p => k))
  (at level 61, p pattern, r at next level, right associativity).

(** A [struct page *] that may carry an errno (ERR_PTR). *)
Inductive errno := EINTR | ENOMEM | EINVAL.

Inductive page_ptr :=
| Page (pg : page)
| ERR_PTR (e : errno).

Section Pool.

(** Kernel constants this file uses but does not define. *)
Variable PAGE_SHIFT : Z.
Variable __GFP_HIGHMEM : Z.

(** [1 << n] computed in [int]. *)
Definition shl1 (n : Z) : Z := wrap_int (Z.shiftl 1 n).

Definition account (g : globals) (pages bytes : Z) : globals :=
  {| nr_total_pages := wrap_long (nr_total_pages g + pages);
     nr_indirectly_reclaimable_bytes :=
       wrap_long (nr_indirectly_reclaimable_bytes g + bytes);
     buddy_log := buddy_log g |}.

Definition log_call (g : globals) (c : buddy_call) : globals :=
  {| nr_total_pages := nr_total_pages g;
     nr_indirectly_reclaimable_bytes := nr_indirectly_reclaimable_bytes g;
     buddy_log := buddy_log g ++ [c] |}.

(** ion_page_pool_alloc_pages(): [fresh] is what alloc_pages() hands
    back, [None] for NULL. *)
Definition ion_page_pool_alloc_pages (pool : ion_page_pool)
           (fresh : option page) (g : globals) : option page * globals :=
  (fresh, log_call g (Alloc_pages (gfp_mask pool) (order pool))).

(** ion_page_pool_free_pages() *)
Definition ion_page_pool_free_pages (pool : ion_page_pool) (pg : page)
           (g : globals) : globals :=
  log_call g (Free_pages pg (order pool)).

(** ion_page_pool_add() *)
Definition ion_page_pool_add (pool : ion_page_pool) (pg : page) (g : globals)
  : Z * ion_page_pool * globals :=
  let pool' :=
    if PageHighMem pg then
      {| high_count := wrap_int (high_count pool + 1);
         low_count := low_count pool;
         high_items := high_items pool ++ [pg];
         low_items := low_items pool;
         gfp_mask := gfp_mask pool; order := order pool;
         cached := cached pool |}
    else
      {| high_count := high_count pool;
         low_count := wrap_int (low_count pool + 1);
         high_items := high_items pool;
         low_items := low_items pool ++ [pg];
         gfp_mask := gfp_mask pool; order := order pool;
         cached := cached pool |} in
  (0, pool',
   account g (shl1 (order pool)) (shl1 (PAGE_SHIFT + order pool))).

(** ion_page_pool_remove(); the caller holds the lock. *)
Definition ion_page_pool_remove (pool : ion_page_pool) (high : bool)
           (g : globals) : result (page * ion_page_pool * globals) :=
  '(pg, pool') <-
    (if high then
       if high_count pool =? 0 then Fault BUG_ON_count
       else match high_items pool with
            | [] => Fault Empty_list_entry
            | pg :: rest =>
              Ok (pg,
                  {| high_count := wrap_int (high_count pool - 1);
                     low_count := low_count pool;
                     high_items := rest;
                     low_items := low_items pool;
                     gfp_mask := gfp_mask pool; order := order pool;
                     cached := cached pool |})
            end
     else
       if low_count pool =? 0 then Fault BUG_ON_count
       else match low_items pool with
            | [] => Fault Empty_list_entry
            | pg :: rest =>
              Ok (pg,
                  {| high_count := high_count pool;
                     low_count := wrap_int (low_count pool - 1);
                     high_items := high_items pool;
                     low_items := rest;
                     gfp_mask := gfp_mask pool; order := order pool;
                     cached := cached pool |})
            end) ;;
  Ok (pg, pool',
      account g (- shl1 (order pool))
              (wrap_int (- shl1 (PAGE_SHIFT + order pool)))).

(** ion_page_pool_alloc().  [pool = None] is a NULL pool pointer,
    [from_pool] the value behind the in/out pointer, [trylock] whether
    spin_trylock() would get the lock; the second component of the outcome
    is [*from_pool] at return. *)
Definition ion_page_pool_alloc (pool : option ion_page_pool)
           (from_pool : bool) (fatal_signal_pending : bool) (trylock : bool)
           (fresh : option page) (g : globals)
  : result (page_ptr * bool * ion_page_pool * globals) :=
  match pool with
  | None => Fault BUG_ON_pool
  | Some pool =>
    if fatal_signal_pending then Ok (ERR_PTR EINTR, from_pool, pool, g)
    else
      '(pg, pool1, g1) <-
        (if from_pool && trylock then
           if negb (high_count pool =? 0) then
             '(pg, pool', g') <- ion_page_pool_remove pool true g ;;
             Ok (Some pg, pool', g')
           else if negb (low_count pool =? 0) then
             '(pg, pool', g') <- ion_page_pool_remove pool false g ;;
             Ok (Some pg, pool', g')
           else Ok (None, pool, g)
         else Ok (None, pool, g)) ;;
      match pg with
      | Some pg => Ok (Page pg, from_pool, pool1, g1)
      | None =>
        let '(pg2, g2) := ion_page_pool_alloc_pages pool1 fresh g1 in
        match pg2 with
        | Some pg2 => Ok (Page pg2, false, pool1, g2)
        | None => Ok (ERR_PTR ENOMEM, false, pool1, g2)
        end
      end
  end.

(** ion_page_pool_alloc_pool_only() *)
Definition ion_page_pool_alloc_pool_only (pool : option ion_page_pool)
           (trylock : bool) (g : globals)
  : result (page_ptr * option ion_page_pool * globals) :=
  match pool with
  | None => Ok (ERR_PTR EINVAL, None, g)
  | Some pool =>
    '(pg, pool1, g1) <-
      (if trylock then
         if negb (high_count pool =? 0) then
           '(pg, pool', g') <- ion_page_pool_remove pool true g ;;
           Ok (Some pg, pool', g')
         else if negb (low_count pool =? 0) then
           '(pg, pool', g') <- ion_page_pool_remove pool false g ;;
           Ok (Some pg, pool', g')
         else Ok (None, pool, g)
       else Ok (None, pool, g)) ;;
    match pg with
    | Some pg => Ok (Page pg, Some pool1, g1)
    | None => Ok (ERR_PTR ENOMEM, Some pool1, g1)
    end
  end.

(** ion_page_pool_free() and ion_page_pool_free_immediate() *)
Definition ion_page_pool_free (pool : ion_page_pool) (pg : page) (g : globals)
  : ion_page_pool * globals :=
  let '(_, pool', g') := ion_page_pool_add pool pg g in (pool', g').

Definition ion_page_pool_free_immediate (pool : ion_page_pool) (pg : page)
           (g : globals) : globals :=
  ion_page_pool_free_pages pool pg g.

(** ion_page_pool_total() *)
Definition ion_page_pool_total (pool : ion_page_pool) (high : bool) : Z :=
  let count := low_count pool in
  let count := if high then wrap_int (count + high_count pool) else count in
  wrap_int (Z.shiftl count (order pool)).

(** ion_page_pool_nr_pages(): returns the counter and stores the clamped
    value back. *)
Definition ion_page_pool_nr_pages (g : globals) : Z * globals :=
  let g' :=
    if nr_total_pages g <? 0 then
      {| nr_total_pages := 0;
         nr_indirectly_reclaimable_bytes := nr_indirectly_reclaimable_bytes g;
         buddy_log := buddy_log g |}
    else g in
  (nr_total_pages g', g').

(** The while loop of ion_page_pool_shrink(), unrolled at most [fuel]
    times. *)
Fixpoint shrink_loop (fuel : nat) (pool : ion_page_pool) (high : bool)
         (nr_to_scan : Z) (freed : Z) (g : globals)
  : result (Z * ion_page_pool * globals) :=
  if freed <? nr_to_scan then
    match fuel with
    | O => Fault Unfinished
    | S fuel' =>
      if negb (low_count pool =? 0) then
        '(pg, pool', g') <- ion_page_pool_remove pool false g ;;
        shrink_loop fuel' pool' high nr_to_scan
                    (wrap_int (freed + shl1 (order pool')))
                    (ion_page_pool_free_pages pool' pg g')
      else if high && negb (high_count pool =? 0) then
        '(pg, pool', g') <- ion_page_pool_remove pool true g ;;
        shrink_loop fuel' pool' high nr_to_scan
                    (wrap_int (freed + shl1 (order pool')))
                    (ion_page_pool_free_pages pool' pg g')
      else Ok (freed, pool, g)
    end
  else Ok (freed, pool, g).

(** Every turn of the loop unlinks one list entry, so one more turn than
    there are entries is always enough. *)
Definition shrink_fuel (pool : ion_page_pool) : nat :=
  S (length (low_items pool) + length (high_items pool)).

(** ion_page_pool_shrink() *)
Definition ion_page_pool_shrink (pool : ion_page_pool) (gfp : Z)
           (nr_to_scan : Z) (current_is_kswapd : bool) (g : globals)
  : result (Z * ion_page_pool * globals) :=
  let high :=
    if current_is_kswapd then true
    else negb (Z.land gfp __GFP_HIGHMEM =? 0) in
  if nr_to_scan =? 0 then Ok (ion_page_pool_total pool high, pool, g)
  else shrink_loop (shrink_fuel pool) pool high nr_to_scan 0 g.

(** ion_page_pool_create(): [kmalloc_ok] tells whether kmalloc() returned
    memory, [stale_cached] what the [cached] byte of that memory held, which
    the function leaves in place when [cached] is false. *)
Definition ion_page_pool_create (gfp : Z) (ord : Z) (cached_arg : bool)
           (kmalloc_ok : bool) (stale_cached : bool) : option ion_page_pool :=
  if kmalloc_ok then
    Some {| high_count := 0; low_count := 0;
            high_items := []; low_items := [];
            gfp_mask := gfp; order := ord;
            cached := if cached_arg then true else stale_cached |}
  else None.

(** A run of ion_page_pool_free() calls, first page first. *)
Fixpoint free_all (pool : ion_page_pool) (pgs : list page) (g : globals)
  : ion_page_pool * globals :=
  match pgs with
  | [] => (pool, g)
  | pg :: rest =>
    let '(pool', g') := ion_page_pool_free pool pg g in free_all pool' rest g'
  end.

(** A run of pushes and pops on one pool, as its callers issue them under
    the lock; it stops at the first pop that faults. *)
Inductive pool_op :=
| Op_add (pg : page)
| Op_remove (high : bool).

Fixpoint run_ops (pool : ion_page_pool) (g : globals) (ops : list pool_op)
  : result (ion_page_pool * globals) :=
  match ops with
  | [] => Ok (pool, g)
  | Op_add pg :: rest =>
    let '(_, pool', g') := ion_page_pool_add pool pg g in
    run_ops pool' g' rest
  | Op_remove high :: rest =>
    '(_, pool', g') <- ion_page_pool_remove pool high g ;;
    run_ops pool' g' rest
  end.

(** Pushes minus pops of a run. *)
Fixpoint net_adds (ops : list pool_op) : Z :=
  match ops with
  | [] => 0
  | Op_add _ :: rest => net_adds rest + 1
  | Op_remove _ :: rest => net_adds rest - 1
  end.

(** A pool whose counts agree with its lists and fit an [int]; this is
    what create, add and remove maintain. *)
Definition pool_wf (pool : ion_page_pool) : Prop :=
  low_count pool = Z.of_nat (length (low_items pool)) /\
  high_count pool = Z.of_nat (length (high_items pool)) /\
  low_count pool <= INT_MAX /\ high_count pool <= INT_MAX.

(** A well-formed pool that is the only one the global page counter counts
    for, with the counter in step: every pooled entry stands for 2^order
    pages. *)
Definition pool_accounted (pool : ion_page_pool) (g : globals) : Prop :=
  pool_wf pool /\
  nr_total_pages g = (low_count pool + high_count pool) * 2 ^ order pool.

(** The pool after [k] low and [j] high entries have been unlinked from
    the front of its lists. *)
Definition unlinked (pool : ion_page_pool) (k j : nat) : ion_page_pool :=
  {| high_count := high_count pool - Z.of_nat j;
     low_count := low_count pool - Z.of_nat k;
     high_items := skipn j (high_items pool);
     low_items := skipn k (low_items pool);
     gfp_mask := gfp_mask pool; order := order pool;
     cached := cached pool |}.

(** The pool after the pages [pgs] have been linked, in that order, at the
    tail of the list of their memory class. *)
Definition highs (pgs : list page) : list page := filter PageHighMem pgs.
Definition lows (pgs : list page) : list page :=
  filter (fun pg => negb (PageHighMem pg)) pgs.

Definition linked (pool : ion_page_pool) (pgs : list page) : ion_page_pool :=
  {| high_count := high_count pool + Z.of_nat (length (highs pgs));
     low_count := low_count pool + Z.of_nat (length (lows pgs));
     high_items := high_items pool ++ highs pgs;
     low_items := low_items pool ++ lows pgs;
     gfp_mask := gfp_mask pool; order := order pool;
     cached := cached pool |}.

(** [n] rounded up to the next multiple of [unit]. *)
Definition round_up (n unit : Z) : Z := (n + unit - 1) / unit * unit.

(** Did the unrolled loop run out of turns? *)
Definition loop_unfinished {A : Type} (r : result A) : bool :=
  match r with
  | Fault Unfinished => true
  | _ => false
  end.

(** Did an operation stop on the BUG_ON() of ion_page_pool_remove()? *)
Definition count_assert_fired {A : Type} (r : result A) : bool :=
  match r with
  | Fault BUG_ON_count => true
  | _ => false
  end.

End Pool.

(** Concrete pages, a pool holding three low and two high entries of
    order 2, and globals that agree with it (PAGE_SHIFT = 12), used to run
    the operations on explicit inputs. *)
Definition lo (n : Z) : page := {| pfn := n; PageHighMem := false |}.
Definition hi (n : Z) : page := {| pfn := n; PageHighMem := true |}.

Definition sample_pool : ion_page_pool :=
  {| high_count := 2; low_count := 3;
     high_items := [hi 10; hi 11]; low_items := [lo 1; lo 2; lo 3];
     gfp_mask := 0; order := 2; cached := false |}.

Definition sample_globals : globals :=
  {| nr_total_pages := 20; nr_indirectly_reclaimable_bytes := 81920;
     buddy_log := [] |}.

End IonPagePool.

(* ================================================================== *)
(** * Properties of the boost driver                                   *)
(* ================================================================== *)

Module DevfreqBoostSpec.
Import DevfreqBoost.

(** ** Bit-level facts about the three flags *)

Lemma test_set_bit (n m s : Z) :
  0 <= n -> 0 <= m ->
  test_bit n (set_bit m s) = (n =? m) || test_bit n s.
Proof.
  intros Hn Hm. unfold test_bit, set_bit, BIT.
  rewrite Z.lor_spec, Z.shiftl_1_l, Z.pow2_bits_eqb by assumption.
  rewrite (Z.eqb_sym m n). apply orb_comm.
Qed.

Lemma test_clear_bit (n m s : Z) :
  0 <= n -> 0 <= m ->
  test_bit n (clear_bit m s) = negb (n =? m) && test_bit n s.
Proof.
  intros Hn Hm. unfold test_bit, clear_bit, BIT.
  rewrite Z.land_spec, Z.lnot_spec, Z.shiftl_1_l, Z.pow2_bits_eqb by assumption.
  rewrite (Z.eqb_sym m n). apply andb_comm.
Qed.

Ltac bits :=
  repeat first [ rewrite test_set_bit by (cbv; discriminate)
               | rewrite test_clear_bit by (cbv; discriminate) ];
  cbn [SCREEN_OFF INPUT_BOOST MAX_BOOST Z.eqb Pos.eqb negb orb andb].

(** What a kick that gets past its guard does to the whole device. *)
Lemma kick_unfold (dur dur_max : Z) (m2j : Z -> Z) b max jiffies d :
  df b = Some d ->
  test_bit SCREEN_OFF (state b) = false ->
  __devfreq_boost_kick dur dur_max m2j b max jiffies =
  let st := if max then clear_bit INPUT_BOOST (set_bit MAX_BOOST (state b))
            else set_bit INPUT_BOOST (state b) in
  let dl := jiffies + m2j (if max then dur_max else dur) in
  {| df := df b;
     unboost := {| pending := true; expires := dl |};
     boost_waitq := if pending (unboost b) then boost_waitq b
                    else S (boost_waitq b);
     boost_freq := boost_freq b;
     state := st |}.
Proof.
  intros Hdf Hoff. destruct b as [df0 [p e] w f s].
  cbn [df state] in Hdf, Hoff. subst df0.
  unfold __devfreq_boost_kick. cbn [df state]. rewrite Hoff.
  destruct max, p; reflexivity.
Qed.




(** C9: on a device whose governor handle is absent, and on a device with
    SCREEN_OFF set, a kick with either value of max returns the device as
    it was: same bitmask, same delayed work (nothing armed or re-armed),
    same number of wake-ups; the operation has no error outcome. *)
Theorem kick_noop_unregistered_or_screen_off
        (dur dur_max : Z) (m2j : Z -> Z) b max jiffies :
  df b = None \/ test_bit SCREEN_OFF (state b) = true ->
  __devfreq_boost_kick dur dur_max m2j b max jiffies = b.
Proof.
  intros [Hdf | Hoff]; unfold __devfreq_boost_kick.
  - rewrite Hdf. reflexivity.
  - rewrite Hoff. destruct (df b); reflexivity.
Qed.

Lemma kick_noop_unregistered_or_screen_off_witness :
  __devfreq_boost_kick 64 250 (fun ms => ms) (BOOST_DEV_INIT 300) true 7
    = BOOST_DEV_INIT 300 /\
  __devfreq_boost_kick 64 250 (fun ms => ms)
                       (msm_drm_blank_one sample_dev false) false 7
    = msm_drm_blank_one sample_dev false.
Proof.
  split.
  - apply kick_noop_unregistered_or_screen_off. left. reflexivity.
  - apply kick_noop_unregistered_or_screen_off. right. reflexivity.
Defined.

(** C3: for a bound device whose table has a first entry [f0], the worker
    hands the governor a minimum frequency [f] chosen by precedence:
    SCREEN_OFF gives [f0] whatever the other bits; else MAX_BOOST gives the
    device maximum; else INPUT_BOOST gives min(boost_freq, max_freq); else
    [f0].  The thread applies exactly that for the bitmask it observes. *)
Theorem update_boosts_precedence (upd : devfreq -> devfreq) b st d f0 :
  df b = Some d ->
  nth_error (freq_table (profile d)) 0 = Some f0 ->
  exists f,
    devfreq_update_boosts upd b st
      = Some (set_df b (Some (upd (set_min_freq d f)))) /\
    (test_bit SCREEN_OFF st = true -> f = f0) /\
    (test_bit SCREEN_OFF st = false -> test_bit MAX_BOOST st = true ->
     f = max_freq d) /\
    (test_bit SCREEN_OFF st = false -> test_bit MAX_BOOST st = false ->
     test_bit INPUT_BOOST st = true ->
     f = Z.min (boost_freq b) (max_freq d)) /\
    (test_bit SCREEN_OFF st = false -> test_bit MAX_BOOST st = false ->
     test_bit INPUT_BOOST st = false -> f = f0) /\
    (forall old stop, st = state b -> st <> old ->
     devfreq_boost_thread upd old b stop
       = Updated st (set_df b (Some (upd (set_min_freq d f))))).
Proof.
  intros Hdf Htab.
  assert (Hthread : forall f,
    devfreq_update_boosts upd b st
      = Some (set_df b (Some (upd (set_min_freq d f)))) ->
    forall old stop, st = state b -> st <> old ->
    devfreq_boost_thread upd old b stop
      = Updated st (set_df b (Some (upd (set_min_freq d f))))).
  { intros f Hupd old stop Hst Hne. unfold devfreq_boost_thread.
    rewrite <- Hst. apply Z.eqb_neq in Hne. rewrite Hne. cbn [negb].
    rewrite Hupd. reflexivity. }
  unfold devfreq_update_boosts in *. rewrite Hdf, Htab in *.
  destruct (test_bit SCREEN_OFF st) eqn:Hoff;
    [| destruct (test_bit MAX_BOOST st) eqn:Hmax;
       [| destruct (test_bit INPUT_BOOST st) eqn:Hin]];
    eexists; (split; [reflexivity |]);
    repeat split; intros; try congruence; apply Hthread; auto.
Qed.

Lemma update_boosts_precedence_witness :
  exists f,
    devfreq_update_boosts (fun d => d) sample_dev 5
      = Some (set_df sample_dev
                (Some (set_min_freq (set_is_boost_device sample_devfreq true)
                                    f))) /\
    test_bit MAX_BOOST 5 = true /\
    f = 100.
Proof.
  destruct (update_boosts_precedence (fun d => d) sample_dev 5 _ 100
              eq_refl eq_refl) as [f [Hupd [Hoff _]]].
  exists f. split; [exact Hupd | split; [reflexivity |]].
  apply Hoff. reflexivity.
Defined.

(** ** The driver on the scenarios of the specification *)

(** An input kick followed by a max kick before the deadline leaves
    MAX_BOOST alone in the bitmask, with the deadline of the max kick. *)
Example kick_input_then_max :
  let b := run 64 250 (fun ms => ms) sample_dev [Kick false 0; Kick true 1] in
  state b = 4 /\ unboost b = {| pending := true; expires := 251 |} /\
  boost_waitq b = 1%nat.
Proof. repeat split. Qed.

(** The deadline firing after a kick clears the boost bits, and the worker
    then applies the first table frequency. *)
Example unboost_after_kick :
  let b := run 64 250 (fun ms => ms) sample_dev
               [Kick true 0; UnboostExpired] in
  state b = 0 /\
  devfreq_boost_thread (fun d => d) 4 b false
  = Updated 0 (set_df b (Some (set_min_freq
                                 (set_is_boost_device sample_devfreq true)
                                 100))).
Proof. repeat split. Qed.

(** A blank event during a max boost keeps MAX_BOOST in the bitmask, and
    the worker applies the first table frequency, not the maximum. *)
Example screen_off_during_max_boost :
  let b := run 64 250 (fun ms => ms) sample_dev
               [Kick true 0; Blank false] in
  state b = 5 /\
  devfreq_boost_thread (fun d => d) 4 b false
  = Updated 5 (set_df b (Some (set_min_freq
                                 (set_is_boost_device sample_devfreq true)
                                 100))).
Proof. repeat split. Qed.

(* ------------------------------------------------------------------ *)
(** ** Further properties of one device slot *)

Lemma clear_set_bit (n s : Z) :
  0 <= n -> test_bit n s = false -> clear_bit n (set_bit n s) = s.
Proof.
  intros Hn Hclear. apply Z.bits_inj'. intros m Hm.
  change (test_bit m (clear_bit n (set_bit n s)) = test_bit m s).
  rewrite test_clear_bit, test_set_bit by assumption.
  destruct (m =? n) eqn:Hmn; cbn [negb andb orb]; [| reflexivity].
  apply Z.eqb_eq in Hmn. subst m. symmetry. exact Hclear.
Qed.

Lemma kick_guarded (dur dur_max : Z) (m2j : Z -> Z) b max jiffies :
  test_bit SCREEN_OFF (state b) = true ->
  __devfreq_boost_kick dur dur_max m2j b max jiffies = b.
Proof.
  intros Hoff. unfold __devfreq_boost_kick. rewrite Hoff.
  destruct (df b); reflexivity.
Qed.

Lemma kick_keeps_screen_off (dur dur_max : Z) (m2j : Z -> Z) b max jiffies :
  test_bit SCREEN_OFF (state (__devfreq_boost_kick dur dur_max m2j b max
                                                   jiffies))
  = test_bit SCREEN_OFF (state b).
Proof.
  destruct (df b) as [d |] eqn:Hdf.
  - destruct (test_bit SCREEN_OFF (state b)) eqn:Hoff.
    + rewrite kick_guarded by assumption. exact Hoff.
    + rewrite (kick_unfold dur dur_max m2j b max jiffies d Hdf Hoff).
      destruct max; cbn [state]; bits; exact Hoff.
  - unfold __devfreq_boost_kick. rewrite Hdf. reflexivity.
Qed.

Lemma run_app (dur dur_max : Z) (m2j : Z -> Z) b es1 es2 :
  run dur dur_max m2j b (es1 ++ es2)
  = run dur dur_max m2j (run dur dur_max m2j b es1) es2.
Proof. unfold run. apply fold_left_app. Qed.

(** X1: in a burst of kicks on a bound device with the screen on, with no
    expiry in between, the worker is woken once at most: by the first kick,
    and only if the unboost work was idle.  The work ends up pending with
    the deadline of the last kick. *)
Theorem kick_burst_wakes_once (dur dur_max : Z) (m2j : Z -> Z) ks :
  forall b d max j,
    df b = Some d ->
    test_bit SCREEN_OFF (state b) = false ->
    let b' := run dur dur_max m2j b
                  (map (fun k => Kick (fst k) (snd k)) (ks ++ [(max, j)])) in
    boost_waitq b' = (if pending (unboost b) then boost_waitq b
                      else S (boost_waitq b)) /\
    unboost b' = {| pending := true;
                    expires := j + m2j (if max then dur_max else dur) |} /\
    df b' = df b /\
    test_bit SCREEN_OFF (state b') = false.
Proof.
  induction ks as [| [m1 j1] ks IH]; intros b d max j Hdf Hoff.
  - cbn [app map fst snd run fold_left step].
    rewrite (kick_unfold dur dur_max m2j b max j d Hdf Hoff).
    cbn [boost_waitq unboost df state].
    repeat split; try reflexivity.
    destruct max; bits; exact Hoff.
  - cbn [app map fst snd run fold_left step].
    pose proof (kick_keeps_screen_off dur dur_max m2j b m1 j1) as Hoff1.
    rewrite Hoff in Hoff1.
    pose proof (kick_unfold dur dur_max m2j b m1 j1 d Hdf Hoff) as Hk.
    set (b1 := __devfreq_boost_kick dur dur_max m2j b m1 j1) in *.
    assert (Hdf1 : df b1 = Some d) by (rewrite Hk; exact Hdf).
    destruct (IH b1 d max j Hdf1 Hoff1) as (Hw & Hu & Hd & Hs).
    fold (run dur dur_max m2j b1
              (map (fun k => Kick (fst k) (snd k)) (ks ++ [(max, j)]))).
    rewrite Hw, Hu, Hd, Hs, Hk. cbn [unboost pending boost_waitq df].
    repeat split; reflexivity.
Qed.

Lemma kick_burst_wakes_once_witness :
  boost_waitq (run 64 250 (fun ms => ms) sample_dev
                   [Kick false 0; Kick false 3; Kick true 5]) = 1%nat.
Proof.
  exact (proj1 (kick_burst_wakes_once 64 250 (fun ms => ms)
                  [(false, 0); (false, 3)] sample_dev _ true 5
                  eq_refl eq_refl)).
Defined.

Lemma three_bits_cases (s : Z) :
  0 <= s < 8 ->
  s = 0 \/ s = 1 \/ s = 2 \/ s = 3 \/ s = 4 \/ s = 5 \/ s = 6 \/ s = 7.
Proof. lia. Qed.

Lemma bit_ops_three_bits (n s : Z) :
  n = SCREEN_OFF \/ n = INPUT_BOOST \/ n = MAX_BOOST ->
  0 <= s < 8 ->
  0 <= set_bit n s < 8 /\ 0 <= clear_bit n s < 8.
Proof.
  intros Hn Hs. apply three_bits_cases in Hs.
  destruct Hn as [-> | [-> | ->]];
    repeat (destruct Hs as [-> | Hs]); try subst s; vm_compute;
    repeat split; discriminate.
Qed.

Lemma step_three_bits (dur dur_max : Z) (m2j : Z -> Z) b e :
  0 <= state b < 8 -> 0 <= state (step dur dur_max m2j b e) < 8.
Proof.
  intros Hs.
  assert (Hset : forall n, n = SCREEN_OFF \/ n = INPUT_BOOST \/ n = MAX_BOOST ->
                 forall s, 0 <= s < 8 -> 0 <= set_bit n s < 8)
    by (intros n Hn s Hr; apply (bit_ops_three_bits n s Hn Hr)).
  assert (Hclr : forall n, n = SCREEN_OFF \/ n = INPUT_BOOST \/ n = MAX_BOOST ->
                 forall s, 0 <= s < 8 -> 0 <= clear_bit n s < 8)
    by (intros n Hn s Hr; apply (bit_ops_three_bits n s Hn Hr)).
  destruct e as [max j | d | | unblank]; cbn [step].
  - destruct (df b) as [d |] eqn:Hdf;
      [| unfold __devfreq_boost_kick; rewrite Hdf; exact Hs].
    destruct (test_bit SCREEN_OFF (state b)) eqn:Hoff;
      [rewrite kick_guarded by assumption; exact Hs |].
    rewrite (kick_unfold dur dur_max m2j b max j d Hdf Hoff).
    destruct max; cbn [state]; auto 6.
  - exact Hs.
  - cbn [unboost_fires devfreq_unboost wake_up set_state set_unboost state].
    auto 6.
  - unfold msm_drm_blank_one.
    destruct unblank; cbn [wake_up set_state state]; auto.
Qed.

(** X2: the bitmask never leaves the three flags: whatever kicks,
    registrations, expiries and blank events reach a slot, in any order, a
    bitmask below 8 stays below 8 (and is never negative). *)
Theorem state_stays_three_bits (dur dur_max : Z) (m2j : Z -> Z) es :
  forall b,
    0 <= state b < 8 ->
    0 <= state (run dur dur_max m2j b es) < 8.
Proof.
  induction es as [| e es IH]; intros b Hs; [exact Hs |].
  cbn [run fold_left]. apply IH. apply step_three_bits. exact Hs.
Qed.

Lemma state_stays_three_bits_witness :
  0 <= state (run 64 250 (fun ms => ms) sample_dev
                  [Kick true 0; Blank false; UnboostExpired; Blank true;
                   Kick false 9]) < 8.
Proof.
  apply state_stays_three_bits. vm_compute.
  split; [discriminate | reflexivity].
Defined.

(** X3: only blank events touch SCREEN_OFF: over any run of kicks,
    registrations and expiries the bit keeps the value it had. *)
Theorem screen_off_only_by_blank (dur dur_max : Z) (m2j : Z -> Z) es :
  forall b,
    (forall e, In e es -> forall u, e <> Blank u) ->
    test_bit SCREEN_OFF (state (run dur dur_max m2j b es))
    = test_bit SCREEN_OFF (state b).
Proof.
  induction es as [| e es IH]; intros b Hno; [reflexivity |].
  cbn [run fold_left].
  fold (run dur dur_max m2j (step dur dur_max m2j b e) es).
  rewrite IH by (intros e' Hin; apply Hno; right; exact Hin).
  destruct e as [max j | d | | unblank]; cbn [step].
  - apply kick_keeps_screen_off.
  - reflexivity.
  - cbn [unboost_fires devfreq_unboost wake_up set_state set_unboost state].
    bits. reflexivity.
  - exfalso. apply (Hno (Blank unblank) (or_introl eq_refl) unblank).
    reflexivity.
Qed.

Lemma screen_off_only_by_blank_witness :
  test_bit SCREEN_OFF
    (state (run 64 250 (fun ms => ms) (msm_drm_blank_one sample_dev false)
                [Kick true 0; UnboostExpired; Register sample_devfreq]))
  = true.
Proof.
  rewrite screen_off_only_by_blank; [reflexivity |].
  intros e [<- | [<- | [<- | []]]] u; discriminate.
Defined.

Lemma run_kicks_screen_off (dur dur_max : Z) (m2j : Z -> Z) ks :
  forall b,
    test_bit SCREEN_OFF (state b) = true ->
    run dur dur_max m2j b (map (fun k => Kick (fst k) (snd k)) ks) = b.
Proof.
  induction ks as [| [m j] ks IH]; intros b Hoff; [reflexivity |].
  cbn [map fst snd run fold_left step].
  rewrite kick_guarded by assumption. apply IH. exact Hoff.
Qed.

(** X4: boosts asked for while the screen is off are dropped, not
    deferred: a blank event, any number of kicks, then an unblank event
    leave the slot as it was before (bitmask, delayed work, governor), with
    the single wake-up of the blank event; unblank itself wakes nobody. *)
Theorem screen_off_drops_kicks (dur dur_max : Z) (m2j : Z -> Z) b ks :
  test_bit SCREEN_OFF (state b) = false ->
  run dur dur_max m2j b
      (Blank false :: map (fun k => Kick (fst k) (snd k)) ks ++ [Blank true])
  = wake_up b.
Proof.
  intros Hon. cbn [run fold_left step].
  fold (run dur dur_max m2j (msm_drm_blank_one b false)
            (map (fun k => Kick (fst k) (snd k)) ks ++ [Blank true])).
  rewrite run_app, run_kicks_screen_off.
  - cbn [run fold_left step msm_drm_blank_one wake_up set_state state df
         unboost boost_waitq boost_freq].
    rewrite clear_set_bit by (assumption || (cbv; discriminate)).
    reflexivity.
  - cbn [msm_drm_blank_one wake_up set_state state]. bits. reflexivity.
Qed.

Lemma screen_off_drops_kicks_witness :
  run 64 250 (fun ms => ms) sample_dev
      [Blank false; Kick true 1; Kick false 2; Blank true]
  = wake_up sample_dev.
Proof.
  exact (screen_off_drops_kicks 64 250 (fun ms => ms) sample_dev
           [(true, 1); (false, 2)] eq_refl).
Defined.

(** ** The worker *)

Lemma update_boosts_frame (upd : devfreq -> devfreq) b st b' :
  devfreq_update_boosts upd b st = Some b' ->
  state b' = state b /\ unboost b' = unboost b /\
  boost_waitq b' = boost_waitq b /\ boost_freq b' = boost_freq b.
Proof.
  unfold devfreq_update_boosts. destruct (df b) as [d |]; [| discriminate].
  destruct (if test_bit SCREEN_OFF st
            then nth_error (freq_table (profile d)) 0
            else if test_bit MAX_BOOST st then Some (max_freq d)
                 else if test_bit INPUT_BOOST st
                      then Some (Z.min (boost_freq b) (max_freq d))
                      else nth_error (freq_table (profile d)) 0);
    [| discriminate].
  intros H. injection H as <-. repeat split.
Qed.

(** X5: once the unboost work has run, the worker hands the governor the
    first table frequency, whatever the bitmask was before and whether or
    not the screen is off: no boost outlives its deadline. *)
Theorem unboost_then_worker_applies_table_min
        (upd : devfreq -> devfreq) b d f0 old stop :
  df b = Some d ->
  nth_error (freq_table (profile d)) 0 = Some f0 ->
  state (unboost_fires b) <> old ->
  devfreq_boost_thread upd old (unboost_fires b) stop
  = Updated (state (unboost_fires b))
            (set_df (unboost_fires b) (Some (upd (set_min_freq d f0)))).
Proof.
  intros Hdf Htab Hne. unfold devfreq_boost_thread.
  apply Z.eqb_neq in Hne. rewrite Hne. cbn [negb].
  unfold devfreq_update_boosts.
  replace (df (unboost_fires b)) with (Some d) by (symmetry; exact Hdf).
  rewrite Htab.
  assert (Hmax : test_bit MAX_BOOST (state (unboost_fires b)) = false)
    by (cbn [unboost_fires devfreq_unboost wake_up set_state set_unboost
             state]; bits; reflexivity).
  assert (Hin : test_bit INPUT_BOOST (state (unboost_fires b)) = false)
    by (cbn [unboost_fires devfreq_unboost wake_up set_state set_unboost
             state]; bits; reflexivity).
  rewrite Hmax, Hin.
  destruct (test_bit SCREEN_OFF (state (unboost_fires b))); reflexivity.
Qed.

Lemma unboost_then_worker_applies_table_min_witness :
  let b := run 64 250 (fun ms => ms) sample_dev [Kick true 0] in
  devfreq_boost_thread (fun d => d) 4 (unboost_fires b) true
  = Updated 0 (set_df (unboost_fires b)
                 (Some (set_min_freq
                          (set_is_boost_device sample_devfreq true) 100))).
Proof.
  exact (unboost_then_worker_applies_table_min (fun d => d)
           (run 64 250 (fun ms => ms) sample_dev [Kick true 0])
           _ 100 4 true eq_refl eq_refl ltac:(vm_compute; discriminate)).
Defined.

(** X6: the minimum frequency handed to the governor never exceeds the
    device maximum, provided the first table entry does not: it is the
    first table entry, the device maximum, or the smaller of the boost
    frequency and the device maximum.  The update leaves the bitmask, the
    delayed work, the wake-up count and the boost frequency alone. *)
Theorem applied_min_freq_bounded (upd : devfreq -> devfreq) b st d f0 :
  df b = Some d ->
  nth_error (freq_table (profile d)) 0 = Some f0 ->
  f0 <= max_freq d ->
  exists f b',
    devfreq_update_boosts upd b st = Some b' /\
    df b' = Some (upd (set_min_freq d f)) /\
    f <= max_freq d /\
    (f = f0 \/ f = max_freq d \/ f = Z.min (boost_freq b) (max_freq d)) /\
    state b' = state b /\ unboost b' = unboost b /\
    boost_waitq b' = boost_waitq b /\ boost_freq b' = boost_freq b.
Proof.
  intros Hdf Htab Hle. unfold devfreq_update_boosts. rewrite Hdf, Htab.
  destruct (test_bit SCREEN_OFF st);
    [| destruct (test_bit MAX_BOOST st);
       [| destruct (test_bit INPUT_BOOST st)]];
    eexists; eexists; (split; [reflexivity |]);
    cbn [set_df df state unboost boost_waitq boost_freq];
    repeat split; auto; lia.
Qed.

Lemma applied_min_freq_bounded_witness :
  exists f b',
    devfreq_update_boosts (fun d => d) sample_dev 2 = Some b' /\
    df b' = Some (set_min_freq (set_is_boost_device sample_devfreq true) f) /\
    f <= 800.
Proof.
  destruct (applied_min_freq_bounded (fun d => d) sample_dev 2 _ 100
              eq_refl eq_refl ltac:(cbn; lia))
    as (f & b' & Hrun & Hdf & Hle & _).
  exists f, b'. auto.
Defined.

(** X7: the worker applies a bitmask once: after a round that updated the
    governor, a further round on the slot it left waits (or stops, if asked
    to) without touching the governor again.  A changed bitmask is applied
    even when a stop has been requested; the stop is honoured on the round
    after. *)
Theorem worker_applies_each_state_once (upd : devfreq -> devfreq)
        old b stop s b' :
  devfreq_boost_thread upd old b stop = Updated s b' ->
  s = state b /\
  devfreq_boost_thread upd old b (negb stop) = Updated s b' /\
  devfreq_boost_thread upd s b' false = Waiting /\
  devfreq_boost_thread upd s b' true = Stopped.
Proof.
  unfold devfreq_boost_thread at 1 2.
  destruct (state b =? old) eqn:Hsame; cbn [negb].
  - destruct stop; discriminate.
  - destruct (devfreq_update_boosts upd b (state b)) as [b1 |] eqn:Hupd;
      [| discriminate].
    intros H. injection H as <- <-.
    destruct (update_boosts_frame upd b (state b) b1 Hupd) as (Hst & _).
    unfold devfreq_boost_thread. rewrite Hst, Z.eqb_refl.
    repeat split.
Qed.

Lemma worker_applies_each_state_once_witness :
  exists b',
    devfreq_boost_thread (fun d => d) 0
      (run 64 250 (fun ms => ms) sample_dev [Kick false 0]) true
    = Updated 2 b' /\
    devfreq_boost_thread (fun d => d) 2 b' true = Stopped.
Proof.
  eexists. split; [reflexivity |].
  apply (worker_applies_each_state_once (fun d => d) 0
           (run 64 250 (fun ms => ms) sample_dev [Kick false 0]) true 2 _
           eq_refl).
Defined.

(** X8: a slot without a governor is not safe from the worker: a blank
    event sets SCREEN_OFF and wakes the worker whether or not a governor is
    bound, and the round that follows dereferences the NULL handle.  Kicks
    cannot cause this: they leave an unbound slot exactly as it is. *)
Theorem blank_before_register_faults_worker
        (dur dur_max : Z) (m2j : Z -> Z) (upd : devfreq -> devfreq)
        b ks old stop :
  df b = None ->
  test_bit SCREEN_OFF old = false ->
  run dur dur_max m2j b (map (fun k => Kick (fst k) (snd k)) ks) = b /\
  boost_waitq (msm_drm_blank_one b false) = S (boost_waitq b) /\
  devfreq_boost_thread upd old (msm_drm_blank_one b false) stop = Faulted.
Proof.
  intros Hdf Hold. split; [| split; [reflexivity |]].
  - induction ks as [| [m j] ks IH]; [reflexivity |].
    cbn [map fst snd run fold_left step].
    replace (__devfreq_boost_kick dur dur_max m2j b m j) with b
      by (unfold __devfreq_boost_kick; rewrite Hdf; reflexivity).
    exact IH.
  - unfold devfreq_boost_thread, devfreq_update_boosts.
    cbn [msm_drm_blank_one wake_up set_state state df]. rewrite Hdf.
    destruct (set_bit SCREEN_OFF (state b) =? old) eqn:Hsame;
      [| reflexivity].
    apply Z.eqb_eq in Hsame. rewrite <- Hsame in Hold.
    revert Hold. bits. discriminate.
Qed.

Lemma blank_before_register_faults_worker_witness :
  devfreq_boost_thread (fun d => d) 0
                       (msm_drm_blank_one (BOOST_DEV_INIT 300) false) false
  = Faulted.
Proof.
  exact (proj2 (proj2 (blank_before_register_faults_worker
                         64 250 (fun ms => ms) (fun d => d)
                         (BOOST_DEV_INIT 300) [] 0 false
                         eq_refl eq_refl))).
Defined.

(** ** The array of slots *)

Lemma on_device_middle (f : boost_dev -> boost_dev) pre :
  forall i x rest,
    length pre = i ->
    on_device (pre ++ x :: rest) i f = Some (pre ++ f x :: rest).
Proof.
  unfold on_device.
  induction pre as [| p pre IH]; intros i x rest Hlen; subst i;
    [reflexivity |].
  cbn [length app nth_error store_dev].
  specialize (IH (length pre) x rest eq_refl).
  destruct (nth_error (pre ++ x :: rest) (length pre)); [| discriminate].
  injection IH as ->. reflexivity.
Qed.

Lemma on_device_past_end (f : boost_dev -> boost_dev) d i :
  (length d <= i)%nat -> on_device d i f = None.
Proof.
  intros Hle. unfold on_device.
  destruct (nth_error d i) eqn:Hn; [| reflexivity].
  apply nth_error_None in Hle. congruence.
Qed.

Lemma for_each_device_map (body : boost_dev -> boost_dev) rest :
  forall pre i,
    length pre = i ->
    for_each_device (length rest) i body (pre ++ rest)
    = Some (pre ++ map body rest).
Proof.
  induction rest as [| x rest IH]; intros pre i Hlen; [reflexivity |].
  cbn [length for_each_device map].
  rewrite on_device_middle by assumption.
  change (pre ++ body x :: rest) with (pre ++ [body x] ++ rest).
  rewrite app_assoc, IH by (rewrite length_app; cbn; lia).
  rewrite <- app_assoc. reflexivity.
Qed.

Lemma for_each_device_short (body : boost_dev -> boost_dev) todo :
  forall d i,
    (length d < i + todo)%nat -> (i <= length d)%nat ->
    for_each_device todo i body d = None.
Proof.
  induction todo as [| todo IH]; intros d i Hshort Hle; [lia |].
  cbn [for_each_device].
  destruct (on_device d i body) as [d' |] eqn:Hon; [| reflexivity].
  assert (Hlen : length d' = length d /\ (i < length d)%nat).
  { unfold on_device in Hon.
    destruct (nth_error d i) as [b |] eqn:Hn; [| discriminate].
    injection Hon as <-.
    assert (Hi : (i < length d)%nat)
      by (apply nth_error_Some; congruence).
    split; [| exact Hi]. clear.
    revert i. induction d as [| x d IHd]; intros [| i]; cbn; auto. }
  destruct Hlen as [Hlen Hi]. apply IH; lia.
Qed.

(** X9: an explicit kick touches the slot it names and no other: the
    named slot is kicked, every other slot and the number of slots stay
    as they were; a device number past the array is a fault. *)
Theorem kick_touches_one_slot
        (dur dur_max : Z) (m2j : Z -> Z) pre b post device max jiffies :
  length pre = device ->
  devfreq_boost_kick dur dur_max m2j (pre ++ b :: post) device max jiffies
  = Some (pre ++ __devfreq_boost_kick dur dur_max m2j b max jiffies :: post)
  /\
  devfreq_boost_kick dur dur_max m2j pre device max jiffies = None.
Proof.
  intros Hlen. unfold devfreq_boost_kick. split.
  - apply on_device_middle. exact Hlen.
  - apply on_device_past_end. lia.
Qed.

Lemma kick_touches_one_slot_witness :
  devfreq_boost_kick 64 250 (fun ms => ms)
                     [BOOST_DEV_INIT 300; sample_dev] 1 true 0
  = Some [BOOST_DEV_INIT 300;
          __devfreq_boost_kick 64 250 (fun ms => ms) sample_dev true 0].
Proof.
  exact (proj1 (kick_touches_one_slot 64 250 (fun ms => ms)
                  [BOOST_DEV_INIT 300] sample_dev [] 1 true 0 eq_refl)).
Defined.

(** X10: an input event is a kick with max = false of every slot of the
    array, each slot on its own; with fewer slots than DEVFREQ_MAX the loop
    runs past the array. *)
Theorem input_event_kicks_every_slot
        (dur dur_max : Z) (m2j : Z -> Z) (devfreq_max : nat) d jiffies :
  (length d = devfreq_max ->
   devfreq_boost_input_event dur dur_max m2j devfreq_max d jiffies
   = Some (map (fun b => __devfreq_boost_kick dur dur_max m2j b false jiffies)
               d)) /\
  ((length d < devfreq_max)%nat ->
   devfreq_boost_input_event dur dur_max m2j devfreq_max d jiffies = None).
Proof.
  unfold devfreq_boost_input_event. split.
  - intros <-. apply (for_each_device_map _ d [] 0%nat). reflexivity.
  - intros Hshort. apply for_each_device_short; lia.
Qed.

Lemma input_event_kicks_every_slot_witness :
  devfreq_boost_input_event 64 250 (fun ms => ms) 2
                            [BOOST_DEV_INIT 300; sample_dev] 5
  = Some [BOOST_DEV_INIT 300;
          __devfreq_boost_kick 64 250 (fun ms => ms) sample_dev false 5]
  /\
  devfreq_boost_input_event 64 250 (fun ms => ms) 2 [sample_dev] 5 = None.
Proof.
  split.
  - exact (proj1 (input_event_kicks_every_slot 64 250 (fun ms => ms) 2
                    [BOOST_DEV_INIT 300; sample_dev] 5) eq_refl).
  - exact (proj2 (input_event_kicks_every_slot 64 250 (fun ms => ms) 2
                    [sample_dev] 5) ltac:(cbn; lia)).
Defined.

(** X11: the display notifier ignores every action but the early blank
    event.  On that event it reaches all slots: a blank sets SCREEN_OFF and
    wakes the worker of each slot, an unblank clears SCREEN_OFF and wakes
    nobody; either way the boost bits, the delayed work and the governor
    of each slot stay as they were. *)
Theorem notifier_reaches_every_slot
        (devfreq_max : nat) (early unblank : Z) d action blank :
  length d = devfreq_max ->
  (action <> early ->
   msm_drm_notifier_cb devfreq_max early unblank d action blank = Some d) /\
  (action = early ->
   exists d',
     msm_drm_notifier_cb devfreq_max early unblank d action blank = Some d' /\
     length d' = length d /\
     forall i b,
       nth_error d i = Some b ->
       exists b',
         nth_error d' i = Some b' /\
         test_bit SCREEN_OFF (state b') = negb (blank =? unblank) /\
         test_bit INPUT_BOOST (state b') = test_bit INPUT_BOOST (state b) /\
         test_bit MAX_BOOST (state b') = test_bit MAX_BOOST (state b) /\
         boost_waitq b' = (if blank =? unblank then boost_waitq b
                           else S (boost_waitq b)) /\
         unboost b' = unboost b /\ df b' = df b).
Proof.
  intros Hlen. unfold msm_drm_notifier_cb. split.
  - intros Hne. apply Z.eqb_neq in Hne. rewrite Hne. reflexivity.
  - intros ->. rewrite Z.eqb_refl. cbn [negb]. subst devfreq_max.
    rewrite (for_each_device_map _ d [] 0%nat eq_refl). cbn [app].
    eexists. split; [reflexivity |]. split; [apply length_map |].
    intros i b Hnth. eexists. split; [apply map_nth_error; exact Hnth |].
    unfold msm_drm_blank_one.
    destruct (blank =? unblank);
      cbn [wake_up set_state state boost_waitq unboost df negb]; bits;
      repeat split.
Qed.

Lemma notifier_reaches_every_slot_witness :
  msm_drm_notifier_cb 2 16 0 [BOOST_DEV_INIT 300; sample_dev] 1 4
  = Some [BOOST_DEV_INIT 300; sample_dev].
Proof.
  apply (proj1 (notifier_reaches_every_slot 2 16 0
                  [BOOST_DEV_INIT 300; sample_dev] 1 4 eq_refl)).
  discriminate.
Defined.

(** ** Start-up and input handles *)

Lemma init_step_runs i k :
  forall s,
    fold_left init_step (map (fun j => Kthread_run j true) (seq i k)) s
    = {| live_kthreads := live_kthreads s ++ seq i k;
         handler_registered := handler_registered s;
         notifier_registered := notifier_registered s |}.
Proof.
  revert i. induction k as [| k IH]; intros i s.
  - cbn. rewrite app_nil_r. destruct s; reflexivity.
  - cbn [seq map fold_left]. rewrite IH.
    cbn [init_step live_kthreads handler_registered notifier_registered].
    rewrite <- app_assoc. reflexivity.
Qed.

Lemma stop_kthreads_log i :
  forall log,
    stop_kthreads i log = log ++ map Kthread_stop (rev (seq 0 i)).
Proof.
  induction i as [| i IH]; intros log; [cbn; rewrite app_nil_r; reflexivity |].
  cbn [stop_kthreads]. rewrite IH, seq_S, rev_app_distr, <- app_assoc.
  reflexivity.
Qed.

Lemma init_step_stops i :
  forall h n,
    fold_left init_step (map Kthread_stop (rev (seq 0 i)))
              {| live_kthreads := seq 0 i; handler_registered := h;
                 notifier_registered := n |}
    = {| live_kthreads := []; handler_registered := h;
         notifier_registered := n |}.
Proof.
  induction i as [| i IH]; intros h n; [reflexivity |].
  rewrite seq_S at 1. rewrite rev_app_distr.
  cbn [rev app map fold_left init_step live_kthreads
       handler_registered notifier_registered Nat.add].
  rewrite seq_S, remove_app. cbn [remove Nat.add].
  destruct (Nat.eq_dec i i) as [_ | Hne]; [| contradiction].
  rewrite app_nil_r, notin_remove by (rewrite in_seq; lia).
  apply IH.
Qed.

(** How the thread-creating loop ends. *)
Lemma run_kthreads_cases (kthread_run : nat -> kthread_result) todo :
  forall i log,
    ((forall j, (j < todo)%nat -> kthread_run (i + j)%nat = Task_started) /\
     run_kthreads todo i kthread_run log
     = (i + todo, None,
        log ++ map (fun j => Kthread_run j true) (seq i todo))%nat) \/
    (exists k errno,
       (k < todo)%nat /\ kthread_run (i + k)%nat = Task_err errno /\
       run_kthreads todo i kthread_run log
       = (i + k, Some (Z.neg errno),
          log ++ map (fun j => Kthread_run j true) (seq i k)
              ++ [Kthread_run (i + k) false])%nat).
Proof.
  induction todo as [| todo IH]; intros i log.
  - left. split; [intros j Hj; lia |].
    cbn. rewrite Nat.add_0_r, app_nil_r. reflexivity.
  - cbn [run_kthreads]. destruct (kthread_run i) as [| errno] eqn:Hi.
    + destruct (IH (S i) (log ++ [Kthread_run i true]))
        as [[Hall Hrun] | (k & errno & Hk & Herr & Hrun)].
      * left. split.
        -- intros [| j] Hj; [rewrite Nat.add_0_r; exact Hi |].
           rewrite <- Nat.add_succ_comm. apply Hall. lia.
        -- rewrite Hrun, <- app_assoc, <- Nat.add_succ_comm. reflexivity.
      * right. exists (S k), errno. split; [lia |].
        rewrite <- Nat.add_succ_comm. split; [exact Herr |].
        rewrite Hrun, <- app_assoc. reflexivity.
    + right. exists 0%nat, errno. rewrite Nat.add_0_r.
      split; [lia |]. split; [exact Hi |]. reflexivity.
Qed.

Lemma no_stop_among_runs (i : nat) (js : list nat) (tail : list init_call) :
  (forall c, In c tail -> forall n, c <> Kthread_stop n) ->
  ~ In (Kthread_stop i) (map (fun j => Kthread_run j true) js ++ tail).
Proof.
  intros Htail Hin. apply in_app_or in Hin. destruct Hin as [Hin | Hin].
  - apply in_map_iff in Hin. destruct Hin as (j & Hj & _). discriminate.
  - exact (Htail _ Hin i eq_refl).
Qed.

(** X12: start-up is all or nothing.  devfreq_boost_init() returns 0
    exactly when every thread started and both registrations succeeded,
    and then the DEVFREQ_MAX threads run and the input handler and the
    display notifier are registered.  On any failure it returns a non-zero
    code and leaves nothing behind: the calls it made end with the
    kthread_stop() of every thread it started, threads 0 to k-1, in reverse
    order of creation (k-1 first, 0 last) and with no stop before them; by
    then the input handler is not registered (any more), and afterwards no
    thread is left running. *)
Theorem init_all_or_nothing (devfreq_max : nat)
        (kthread_run : nat -> kthread_result) (handler_ret client_ret : Z) :
  let ret := fst (devfreq_boost_init devfreq_max kthread_run handler_ret
                                     client_ret) in
  let log := snd (devfreq_boost_init devfreq_max kthread_run handler_ret
                                     client_ret) in
  (ret = 0 <->
   (forall i, (i < devfreq_max)%nat -> kthread_run i = Task_started) /\
   handler_ret = 0 /\ client_ret = 0) /\
  (ret = 0 ->
   init_after log = {| live_kthreads := seq 0 devfreq_max;
                       handler_registered := true;
                       notifier_registered := true |}) /\
  (ret <> 0 ->
   init_after log = {| live_kthreads := []; handler_registered := false;
                       notifier_registered := false |}) /\
  (ret <> 0 ->
   exists k calls,
     (k <= devfreq_max)%nat /\
     log = calls ++ map Kthread_stop (rev (seq 0 k)) /\
     (forall i, ~ In (Kthread_stop i) calls) /\
     init_after calls = {| live_kthreads := seq 0 k;
                           handler_registered := false;
                           notifier_registered := false |}).
Proof.
  unfold devfreq_boost_init, init_after.
  destruct (run_kthreads_cases kthread_run devfreq_max 0%nat [])
    as [[Hall ->] | (k & errno & Hk & Herr & ->)];
    cbn [Nat.add app] in *.
  - destruct (handler_ret =? 0) eqn:Hh; cbn [negb];
      [destruct (client_ret =? 0) eqn:Hc; cbn [negb] |];
      cbn [fst snd]; rewrite ?stop_kthreads_log;
      (split; [| split; [| split]]).
    + apply Z.eqb_eq in Hh, Hc. split; auto.
    + intros _. repeat rewrite fold_left_app. rewrite init_step_runs.
      cbn [fold_left init_step live_kthreads handler_registered
           notifier_registered app].
      rewrite Hh, Hc. reflexivity.
    + intros Hne. contradiction.
    + intros Hne. contradiction.
    + apply Z.eqb_neq in Hc. split; [intros H0; contradiction | tauto].
    + intros H0. apply Z.eqb_neq in Hc. contradiction.
    + intros _. repeat rewrite fold_left_app. rewrite init_step_runs.
      cbn [fold_left init_step live_kthreads handler_registered
           notifier_registered app].
      rewrite Hc. apply init_step_stops.
    + intros _. exists devfreq_max. eexists.
      split; [lia |]. split; [reflexivity |]. split.
      * intros i. repeat rewrite <- app_assoc.
        apply no_stop_among_runs.
        intros c [<- | [<- | [<- | []]]] n; discriminate.
      * repeat rewrite fold_left_app. rewrite init_step_runs.
        cbn [fold_left init_step live_kthreads handler_registered
             notifier_registered app].
        rewrite Hc. reflexivity.
    + apply Z.eqb_neq in Hh. split; [intros H0; contradiction | tauto].
    + intros H0. apply Z.eqb_neq in Hh. contradiction.
    + intros _. repeat rewrite fold_left_app. rewrite init_step_runs.
      cbn [fold_left init_step live_kthreads handler_registered
           notifier_registered app].
      rewrite Hh. apply init_step_stops.
    + intros _. exists devfreq_max. eexists.
      split; [lia |]. split; [reflexivity |]. split.
      * intros i. apply no_stop_among_runs.
        intros c [<- | []] n; discriminate.
      * repeat rewrite fold_left_app. rewrite init_step_runs.
        cbn [fold_left init_step live_kthreads handler_registered
             notifier_registered app].
        rewrite Hh. reflexivity.
  - cbn [fst snd]. rewrite stop_kthreads_log.
    split; [| split; [| split]].
    + split; [discriminate |].
      intros (Hall & _). specialize (Hall k Hk). congruence.
    + discriminate.
    + intros _. repeat rewrite fold_left_app. rewrite init_step_runs.
      cbn [fold_left init_step live_kthreads handler_registered
           notifier_registered app].
      apply init_step_stops.
    + intros _. exists k. eexists.
      split; [lia |]. split; [reflexivity |]. split.
      * intros i. apply no_stop_among_runs.
        intros c [<- | []] n; discriminate.
      * repeat rewrite fold_left_app. rewrite init_step_runs.
        cbn [fold_left init_step live_kthreads handler_registered
             notifier_registered app].
        reflexivity.
Qed.

Lemma init_all_or_nothing_witness :
  devfreq_boost_init 3 (fun i => if Nat.eqb i 2 then Task_err 12
                                 else Task_started) 0 0
  = (-12, [Kthread_run 0 true; Kthread_run 1 true; Kthread_run 2 false;
           Kthread_stop 1; Kthread_stop 0]) /\
  exists k calls,
    snd (devfreq_boost_init 3 (fun i => if Nat.eqb i 2 then Task_err 12
                                        else Task_started) 0 0)
    = calls ++ map Kthread_stop (rev (seq 0 k)) /\
    init_after calls = {| live_kthreads := seq 0 k;
                          handler_registered := false;
                          notifier_registered := false |}.
Proof.
  split; [reflexivity |].
  destruct (proj2 (proj2 (proj2 (init_all_or_nothing 3
                         (fun i => if Nat.eqb i 2 then Task_err 12
                                   else Task_started) 0 0)))
              ltac:(discriminate))
    as (k & calls & _ & Hlog & _ & Hafter).
  exists k, calls. split; assumption.
Defined.

(** X13: connecting an input device either succeeds completely or leaves
    nothing behind.  devfreq_boost_input_connect() returns 0 exactly when
    the allocation, the registration and the opening all succeed; the
    handle is then allocated, registered and open, and a disconnect closes,
    unregisters and frees it.  On any failure the handle is neither open
    nor registered and its memory has been freed. *)
Theorem input_connect_all_or_nothing
        (enomem : Z) (kzalloc_ok : bool) (register_ret open_ret : Z) :
  enomem <> 0 ->
  let ret := fst (devfreq_boost_input_connect enomem kzalloc_ok register_ret
                                              open_ret) in
  let log := snd (devfreq_boost_input_connect enomem kzalloc_ok register_ret
                                              open_ret) in
  (ret = 0 <-> kzalloc_ok = true /\ register_ret = 0 /\ open_ret = 0) /\
  (ret = 0 ->
   handle_after log
   = {| allocated := true; registered := true; opened := true |} /\
   handle_after (log ++ devfreq_boost_input_disconnect)
   = {| allocated := false; registered := false; opened := false |}) /\
  (ret <> 0 ->
   handle_after log
   = {| allocated := false; registered := false; opened := false |}).
Proof.
  intros Hen. unfold devfreq_boost_input_connect, handle_after,
                devfreq_boost_input_disconnect.
  destruct kzalloc_ok; cbn [negb];
    [destruct (register_ret =? 0) eqn:Hr; cbn [negb];
     [destruct (open_ret =? 0) eqn:Ho; cbn [negb] |] |];
    cbn [fst snd fold_left app handle_step allocated registered opened];
    rewrite ?Hr, ?Ho; rewrite ?Z.eqb_eq, ?Z.eqb_neq in *;
    repeat split; intros; subst; auto; try congruence; try lia;
    try tauto.
Qed.

Lemma input_connect_all_or_nothing_witness :
  devfreq_boost_input_connect 12 true 0 (-19)
  = (-19, [Kzalloc true; Input_register_handle 0; Input_open_device (-19);
           Input_unregister_handle; Kfree]) /\
  handle_after (snd (devfreq_boost_input_connect 12 true 0 (-19)))
  = {| allocated := false; registered := false; opened := false |}.
Proof.
  split; [reflexivity |].
  apply (proj2 (proj2 (input_connect_all_or_nothing 12 true 0 (-19)
                         ltac:(discriminate)))).
  discriminate.
Defined.

End DevfreqBoostSpec.

(* ================================================================== *)
(** * Properties of the page pool                                      *)
(* ================================================================== *)

Module IonPagePoolSpec.
Import IonPagePool.

(** ** Arithmetic of the wrapped integer types *)

Lemma wrap_int_id (z : Z) : - 2 ^ 31 <= z < 2 ^ 31 -> wrap_int z = z.
Proof. intros H. unfold wrap_int. rewrite Z.mod_small; lia. Qed.

Lemma wrap_long_id (z : Z) : - 2 ^ 63 <= z < 2 ^ 63 -> wrap_long z = z.
Proof. intros H. unfold wrap_long. rewrite Z.mod_small; lia. Qed.

Lemma pow2_le_30 (n : Z) : 0 <= n <= 30 -> 0 < 2 ^ n <= 2 ^ 30.
Proof.
  intros H. split.
  - apply Z.pow_pos_nonneg; lia.
  - apply Z.pow_le_mono_r; lia.
Qed.

Lemma shl1_pow (n : Z) : 0 <= n <= 30 -> shl1 n = 2 ^ n.
Proof.
  intros H. unfold shl1. rewrite Z.shiftl_1_l.
  pose proof (pow2_le_30 n H). apply wrap_int_id. lia.
Qed.

(** ** The assertion of the pop operation *)

Lemma remove_guarded (ps : Z) pool (high : bool) g :
  ((if high then high_count pool else low_count pool) =? 0) = false ->
  count_assert_fired (ion_page_pool_remove ps pool high g) = false.
Proof.
  intros Hc. unfold ion_page_pool_remove.
  destruct high; rewrite Hc;
    [destruct (high_items pool) | destruct (low_items pool)]; reflexivity.
Qed.

Lemma bind_no_count_assert {A B : Type} (r : result A) (k : A -> result B) :
  count_assert_fired r = false ->
  (forall a, r = Ok a -> count_assert_fired (k a) = false) ->
  count_assert_fired (bind r k) = false.
Proof.
  intros Hr Hk. destruct r as [a | f]; cbn [bind].
  - apply Hk. reflexivity.
  - exact Hr.
Qed.

Lemma shrink_loop_no_count_assert (ps : Z) fuel :
  forall pool high nr_to_scan freed g,
    count_assert_fired (shrink_loop ps fuel pool high nr_to_scan freed g)
    = false.
Proof.
  induction fuel as [| fuel IH]; intros pool high nr freed g;
    cbn [shrink_loop]; destruct (freed <? nr); try reflexivity.
  destruct (low_count pool =? 0) eqn:Hlow; cbn [negb].
  - destruct high; cbn [andb]; [| reflexivity].
    destruct (high_count pool =? 0) eqn:Hhigh; cbn [negb]; [reflexivity |].
    apply bind_no_count_assert.
    + apply remove_guarded. exact Hhigh.
    + intros [[pg pool'] g'] _. apply IH.
  - apply bind_no_count_assert.
    + apply remove_guarded. exact Hlow.
    + intros [[pg pool'] g'] _. apply IH.
Qed.

Lemma remove_assert_iff (ps : Z) pool (high : bool) g :
  count_assert_fired (ion_page_pool_remove ps pool high g)
  = ((if high then high_count pool else low_count pool) =? 0).
Proof.
  destruct ((if high then high_count pool else low_count pool) =? 0) eqn:Hc.
  - unfold ion_page_pool_remove. destruct high; rewrite Hc; reflexivity.
  - apply remove_guarded. exact Hc.
Qed.

(** Every way a pop can end. *)
Lemma remove_cases (ps : Z) pool (high : bool) g :
  let count := if high then high_count pool else low_count pool in
  let items := if high then high_items pool else low_items pool in
  match ion_page_pool_remove ps pool high g with
  | Ok (pg, pool', g') =>
    count <> 0 /\ items = pg :: (if high then high_items pool'
                                 else low_items pool') /\
    order pool' = order pool /\
    nr_total_pages g' = wrap_long (nr_total_pages g - shl1 (order pool)) /\
    buddy_log g' = buddy_log g
  | Fault f =>
    (count = 0 /\ f = BUG_ON_count) \/
    (count <> 0 /\ items = [] /\ f = Empty_list_entry)
  end.
Proof.
  unfold ion_page_pool_remove.
  destruct high;
    [ destruct (high_count pool =? 0) eqn:Hc
    | destruct (low_count pool =? 0) eqn:Hc ];
    (apply Z.eqb_eq in Hc || apply Z.eqb_neq in Hc); cbn [bind]; auto;
    [ destruct (high_items pool) | destruct (low_items pool) ];
    cbn [bind high_items low_items order account nr_total_pages buddy_log];
    auto 10.
Qed.

(** ** The unrolling bound of the shrinker loop *)

Lemma remove_lengths (ps : Z) pool (high : bool) g pg pool' g' :
  ion_page_pool_remove ps pool high g = Ok (pg, pool', g') ->
  S (length (low_items pool') + length (high_items pool'))
  = (length (low_items pool) + length (high_items pool))%nat.
Proof.
  unfold ion_page_pool_remove.
  destruct high;
    [ destruct (high_count pool =? 0); [discriminate |];
      destruct (high_items pool) as [| p rest]; [discriminate |]
    | destruct (low_count pool =? 0); [discriminate |];
      destruct (low_items pool) as [| p rest]; [discriminate |] ];
    cbn [bind]; intros H; injection H as <- <- <-; cbn; lia.
Qed.

Lemma shrink_loop_fuel (ps : Z) fuel :
  forall pool high nr_to_scan freed g,
    (length (low_items pool) + length (high_items pool) < fuel)%nat ->
    shrink_loop ps fuel pool high nr_to_scan freed g <> Fault Unfinished.
Proof.
  induction fuel as [| fuel IH]; intros pool high nr freed g Hfuel; [lia |].
  cbn [shrink_loop]. destruct (freed <? nr); [| discriminate].
  assert (Hstep : forall tier,
    match ion_page_pool_remove ps pool tier g with
    | Ok (pg, pool', g') =>
      shrink_loop ps fuel pool' high nr
                  (wrap_int (freed + shl1 (order pool')))
                  (ion_page_pool_free_pages pool' pg g')
    | Fault f => Fault f
    end <> Fault Unfinished).
  { intros tier. pose proof (remove_cases ps pool tier g) as Hcases.
    pose proof (remove_lengths ps pool tier g) as Hlen.
    destruct (ion_page_pool_remove ps pool tier g) as [[[pg pool'] g'] | f].
    - apply IH. specialize (Hlen pg pool' g' eq_refl). lia.
    - cbn zeta in Hcases.
      destruct Hcases as [[_ ->] | (_ & _ & ->)]; discriminate. }
  destruct (negb (low_count pool =? 0)).
  - specialize (Hstep false). unfold bind.
    destruct (ion_page_pool_remove ps pool false g) as [[[pg pool'] g'] | f];
      exact Hstep.
  - destruct (high && negb (high_count pool =? 0)); [| discriminate].
    specialize (Hstep true). unfold bind.
    destruct (ion_page_pool_remove ps pool true g) as [[[pg pool'] g'] | f];
      exact Hstep.
Qed.

(** ion_page_pool_shrink() gives its loop enough turns, on any pool. *)
Lemma shrink_never_unfinished (ps hm : Z) pool gfp nr_to_scan kswapd g :
  loop_unfinished (ion_page_pool_shrink ps hm pool gfp nr_to_scan kswapd g)
  = false.
Proof.
  pose proof (shrink_loop_fuel ps (shrink_fuel pool) pool
                (if kswapd then true else negb (Z.land gfp hm =? 0))
                nr_to_scan 0 g ltac:(unfold shrink_fuel; lia)) as Hfuel.
  unfold ion_page_pool_shrink. destruct (nr_to_scan =? 0); [reflexivity |].
  destruct (shrink_loop _ _ _ _ _ _ _) as [r | []];
    reflexivity || contradiction.
Qed.

(** The pop-from-the-pool block shared by both allocation entry points. *)
Ltac guarded_pop pool :=
  destruct (high_count pool =? 0) eqn:?Hhigh; cbn [negb];
  [ destruct (low_count pool =? 0) eqn:?Hlow; cbn [negb]; [reflexivity |] |];
  (apply bind_no_count_assert;
   [ apply remove_guarded; assumption
   | intros [[? ?] ?] _; reflexivity ]).

(** C10: the BUG_ON() on the tier count inside ion_page_pool_remove()
    never fires through alloc, alloc_pool_only or shrink, whatever the pool
    holds: each of them tests the count of the tier it pops from, under the
    lock, right before the call (and the loop of shrink does run to its
    end).  The assertion itself is live: a direct pop fires it exactly when
    the count of the chosen tier is zero. *)
Theorem pop_assert_never_fires (ps hm : Z) :
  (forall pool from_pool sig trylock fresh g,
     count_assert_fired
       (ion_page_pool_alloc ps pool from_pool sig trylock fresh g) = false) /\
  (forall pool trylock g,
     count_assert_fired (ion_page_pool_alloc_pool_only ps pool trylock g)
     = false) /\
  (forall pool gfp nr_to_scan kswapd g,
     count_assert_fired
       (ion_page_pool_shrink ps hm pool gfp nr_to_scan kswapd g) = false /\
     loop_unfinished
       (ion_page_pool_shrink ps hm pool gfp nr_to_scan kswapd g) = false) /\
  (forall pool (high : bool) g,
     count_assert_fired (ion_page_pool_remove ps pool high g)
     = ((if high then high_count pool else low_count pool) =? 0)).
Proof.
  repeat split.
  - intros [pool |] from_pool sig trylock fresh g; [| reflexivity].
    unfold ion_page_pool_alloc. destruct sig; [reflexivity |].
    apply bind_no_count_assert.
    + destruct (from_pool && trylock); [| reflexivity]. guarded_pop pool.
    + intros [[[pg |] p1] g1] _; [reflexivity |].
      cbn. destruct fresh; reflexivity.
  - intros [pool |] trylock g; [| reflexivity].
    unfold ion_page_pool_alloc_pool_only.
    apply bind_no_count_assert.
    + destruct trylock; [| reflexivity]. guarded_pop pool.
    + intros [[[pg |] p1] g1] _; reflexivity.
  - unfold ion_page_pool_shrink.
    destruct (nr_to_scan =? 0); [reflexivity |].
    apply shrink_loop_no_count_assert.
  - apply shrink_never_unfinished.
  - intros. apply remove_assert_iff.
Qed.

(** C6: with a fatal signal pending, alloc returns ERR_PTR(-EINTR) and
    nothing else happens: the pool (lists and counts), [*from_pool], the
    global page counter and the log of page-allocator calls are the ones it
    was given, whatever the lock and the allocator would have done. *)
Theorem alloc_interrupted_touches_nothing
        (ps : Z) pool from_pool trylock fresh g :
  ion_page_pool_alloc ps (Some pool) from_pool true trylock fresh g
  = Ok (ERR_PTR EINTR, from_pool, pool, g).
Proof.
  unfold ion_page_pool_alloc.
  (* the signal test is the first thing after the NULL check *)
  cbv iota. reflexivity.
Qed.

(** C7: shrink with nr_to_scan = 0 returns ion_page_pool_total() with the
    high tier included exactly when the caller is kswapd or the gfp mask has
    __GFP_HIGHMEM, and hands back the pool and the globals untouched. *)
Theorem shrink_zero_is_pure_query (ps hm : Z) pool gfp kswapd g :
  ion_page_pool_shrink ps hm pool gfp 0 kswapd g
  = Ok (ion_page_pool_total pool (kswapd || negb (Z.land gfp hm =? 0)),
        pool, g).
Proof. unfold ion_page_pool_shrink. destruct kswapd; reflexivity. Qed.

(** The figures of the specification: 3 low and 2 high entries of order 2
    count 12 base pages without the high tier and 20 with it. *)
Example total_low_only : ion_page_pool_total sample_pool false = 12.
Proof. reflexivity. Qed.

Example total_both_tiers : ion_page_pool_total sample_pool true = 20.
Proof. reflexivity. Qed.

(** ** The global page counter *)

Lemma add_order (ps : Z) pool pg g :
  order (snd (fst (ion_page_pool_add ps pool pg g))) = order pool.
Proof. unfold ion_page_pool_add. destruct (PageHighMem pg); reflexivity. Qed.

Lemma add_counter (ps : Z) pool pg g :
  0 <= order pool <= 30 ->
  LONG_MIN <= nr_total_pages g ->
  nr_total_pages g + 2 ^ order pool <= LONG_MAX ->
  nr_total_pages (snd (ion_page_pool_add ps pool pg g))
  = nr_total_pages g + 2 ^ order pool.
Proof.
  intros Hord Hlo Hhi. unfold ion_page_pool_add.
  cbn [snd account nr_total_pages]. rewrite shl1_pow by assumption.
  pose proof (pow2_le_30 _ Hord). unfold LONG_MIN, LONG_MAX in *.
  apply wrap_long_id. lia.
Qed.

Lemma nr_pages_clamps (g : globals) :
  fst (ion_page_pool_nr_pages g) = Z.max 0 (nr_total_pages g) /\
  nr_total_pages (snd (ion_page_pool_nr_pages g))
  = fst (ion_page_pool_nr_pages g) /\
  buddy_log (snd (ion_page_pool_nr_pages g)) = buddy_log g.
Proof.
  unfold ion_page_pool_nr_pages.
  destruct (nr_total_pages g <? 0) eqn:Hneg;
    [apply Z.ltb_lt in Hneg | apply Z.ltb_ge in Hneg];
    cbn [fst snd nr_total_pages buddy_log]; repeat split; lia.
Qed.

Lemma run_ops_counter (ps : Z) ops :
  forall pool g,
    0 <= order pool <= 30 ->
    LONG_MIN <= nr_total_pages g - Z.of_nat (length ops) * 2 ^ order pool ->
    nr_total_pages g + Z.of_nat (length ops) * 2 ^ order pool <= LONG_MAX ->
    match run_ops ps pool g ops with
    | Ok (pool', g') =>
      nr_total_pages g'
      = nr_total_pages g + 2 ^ order pool * net_adds ops
    | Fault f => f = BUG_ON_count \/ f = Empty_list_entry
    end.
Proof.
  induction ops as [| op rest IH]; intros pool g Hord Hlo Hhi.
  - cbn. lia.
  - cbn [length] in Hlo, Hhi.
    rewrite Nat2Z.inj_succ, Z.mul_succ_l in Hlo, Hhi.
    pose proof (pow2_le_30 _ Hord) as Hu.
    assert (0 <= Z.of_nat (length rest) * 2 ^ order pool) by nia.
    destruct op as [pg | high]; cbn [run_ops net_adds].
    + pose proof (add_counter ps pool pg g Hord ltac:(lia) ltac:(lia))
        as Hadd.
      pose proof (add_order ps pool pg g) as Hsame.
      destruct (ion_page_pool_add ps pool pg g) as [[z pool'] g'].
      cbn [fst snd] in Hadd, Hsame.
      specialize (IH pool' g'). rewrite Hsame, Hadd in IH.
      specialize (IH Hord ltac:(lia) ltac:(lia)).
      destruct (run_ops ps pool' g' rest) as [[p2 g2] | f]; [| exact IH].
      rewrite IH. ring.
    + pose proof (remove_cases ps pool high g) as Hrem. cbn zeta in Hrem.
      destruct (ion_page_pool_remove ps pool high g) as [[[pg pool'] g'] | f];
        cbn [bind].
      * destruct Hrem as (_ & _ & Hsame & Hnr & _).
        rewrite shl1_pow, wrap_long_id in Hnr
          by (unfold LONG_MIN, LONG_MAX in *; lia || assumption).
        specialize (IH pool' g'). rewrite Hsame, Hnr in IH.
        specialize (IH Hord ltac:(lia) ltac:(lia)).
        destruct (run_ops ps pool' g' rest) as [[p2 g2] | f]; [| exact IH].
        rewrite IH. ring.
      * destruct Hrem as [[_ ->] | (_ & _ & ->)]; auto.
Qed.

(** C8: over any run of pushes and pops on a pool of order at most 30
    whose counter stays inside a [long], the global page counter ends at
    its start value plus 2^order for every push and minus 2^order for every
    pop (a run can only stop early on a pop from an empty tier); and a read
    of the counter, at any value racy updates may have left, yields
    max(0, value), which is never negative, and stores that value back. *)
Theorem page_counter_tracks_and_clamps (ps : Z) pool g ops :
  0 <= order pool <= 30 ->
  LONG_MIN <= nr_total_pages g - Z.of_nat (length ops) * 2 ^ order pool ->
  nr_total_pages g + Z.of_nat (length ops) * 2 ^ order pool <= LONG_MAX ->
  match run_ops ps pool g ops with
  | Ok (pool', g') =>
    nr_total_pages g' = nr_total_pages g + 2 ^ order pool * net_adds ops /\
    0 <= fst (ion_page_pool_nr_pages g')
  | Fault f => f = BUG_ON_count \/ f = Empty_list_entry
  end /\
  (forall racy : globals,
     0 <= fst (ion_page_pool_nr_pages racy) /\
     fst (ion_page_pool_nr_pages racy) = Z.max 0 (nr_total_pages racy) /\
     nr_total_pages (snd (ion_page_pool_nr_pages racy))
     = fst (ion_page_pool_nr_pages racy)).
Proof.
  intros Hord Hlo Hhi. split.
  - pose proof (run_ops_counter ps ops pool g Hord Hlo Hhi) as Hrun.
    destruct (run_ops ps pool g ops) as [[pool' g'] | f]; [| exact Hrun].
    split; [exact Hrun |].
    destruct (nr_pages_clamps g') as [-> _]. lia.
  - intros racy. destruct (nr_pages_clamps racy) as (Hread & Hstore & _).
    rewrite Hstore, Hread. repeat split; lia.
Qed.

Lemma page_counter_tracks_and_clamps_witness :
  match run_ops 12 sample_pool sample_globals
                [Op_add (lo 4); Op_remove true; Op_remove false;
                 Op_remove false] with
  | Ok (_, g') => nr_total_pages g' = 12
  | Fault _ => False
  end /\
  fst (ion_page_pool_nr_pages
         {| nr_total_pages := -8; nr_indirectly_reclaimable_bytes := 0;
            buddy_log := [] |}) = 0.
Proof.
  pose proof (page_counter_tracks_and_clamps 12 sample_pool sample_globals
                [Op_add (lo 4); Op_remove true; Op_remove false;
                 Op_remove false]
                ltac:(cbn; lia) ltac:(vm_compute; discriminate)
                ltac:(vm_compute; discriminate)) as [Hrun Hread].
  split.
  - vm_compute in Hrun. vm_compute. apply Hrun.
  - destruct (Hread {| nr_total_pages := -8;
                       nr_indirectly_reclaimable_bytes := 0;
                       buddy_log := [] |}) as (_ & -> & _).
    reflexivity.
Defined.

(** ** Well-formed pools *)

Lemma pool_ext (p q : ion_page_pool) :
  high_count p = high_count q -> low_count p = low_count q ->
  high_items p = high_items q -> low_items p = low_items q ->
  gfp_mask p = gfp_mask q -> order p = order q -> cached p = cached q ->
  p = q.
Proof. destruct p, q; cbn; intros; subst; reflexivity. Qed.

Lemma unlinked_none pool : unlinked pool 0 0 = pool.
Proof. apply pool_ext; cbn; lia || reflexivity. Qed.

Lemma unlinked_unlinked pool a b k j :
  unlinked (unlinked pool a b) k j = unlinked pool (a + k) (b + j).
Proof.
  apply pool_ext; cbn [unlinked high_count low_count high_items low_items
                       gfp_mask order cached];
    rewrite ?skipn_skipn, ?Nat2Z.inj_add; try lia; try reflexivity;
    f_equal; lia.
Qed.

Lemma unlinked_wf pool k j :
  pool_wf pool ->
  (k <= length (low_items pool))%nat -> (j <= length (high_items pool))%nat ->
  pool_wf (unlinked pool k j).
Proof.
  unfold pool_wf. intros (Hl & Hh & Hlmax & Hhmax) Hk Hj.
  cbn [unlinked high_count low_count high_items low_items].
  rewrite !length_skipn. lia.
Qed.

(** On a well-formed pool a pop from a tier whose count is not zero
    succeeds, and unlinks the first entry of that tier. *)
Lemma remove_wf (ps : Z) pool (high : bool) g :
  pool_wf pool ->
  (if high then high_count pool else low_count pool) <> 0 ->
  exists pg rest g',
    (if high then high_items pool else low_items pool) = pg :: rest /\
    ion_page_pool_remove ps pool high g
    = Ok (pg, unlinked pool (if high then 0 else 1) (if high then 1 else 0),
          g') /\
    buddy_log g' = buddy_log g /\
    nr_total_pages g' = wrap_long (nr_total_pages g - shl1 (order pool)).
Proof.
  intros (Hl & Hh & Hlmax & Hhmax) Hc. unfold INT_MAX in *.
  unfold ion_page_pool_remove.
  destruct high; apply Z.eqb_neq in Hc; rewrite Hc; apply Z.eqb_neq in Hc;
    [ destruct (high_items pool) as [| pg rest] eqn:Hitems
    | destruct (low_items pool) as [| pg rest] eqn:Hitems ];
    cbn [length] in *; try lia;
    exists pg, rest,
      (account g (- shl1 (order pool)) (wrap_int (- shl1 (ps + order pool))));
    (split; [reflexivity |]);
    cbn [bind]; (split; [| split; reflexivity]);
    do 2 f_equal; f_equal; apply pool_ext;
    cbn [unlinked high_count low_count high_items low_items gfp_mask order
         cached skipn];
    rewrite ?Hitems; try reflexivity; try lia;
    rewrite wrap_int_id; lia.
Qed.

(** ** Pool-only allocation *)

(** alloc with a failing fallback on a pool it takes nothing from. *)
Lemma alloc_nothing_taken (ps : Z) pool from_pool trylock g :
  trylock = false \/ (high_count pool = 0 /\ low_count pool = 0) ->
  ion_page_pool_alloc ps (Some pool) from_pool false trylock None g
  = Ok (ERR_PTR ENOMEM, false, pool,
        log_call g (Alloc_pages (gfp_mask pool) (order pool))).
Proof.
  intros [-> | [Hh Hl]]; unfold ion_page_pool_alloc.
  - rewrite andb_false_r. reflexivity.
  - rewrite Hh, Hl. destruct (from_pool && trylock); reflexivity.
Qed.

(** The two ways alloc_pool_only ends on a well-formed pool. *)
Lemma alloc_pool_only_cases (ps : Z) pool trylock g :
  pool_wf pool ->
  ((trylock = false \/ (high_count pool = 0 /\ low_count pool = 0)) /\
   ion_page_pool_alloc_pool_only ps (Some pool) trylock g
   = Ok (ERR_PTR ENOMEM, Some pool, g)) \/
  (trylock = true /\ (high_count pool <> 0 \/ low_count pool <> 0) /\
   exists pg p1 g1,
     ion_page_pool_alloc_pool_only ps (Some pool) trylock g
     = Ok (Page pg, Some p1, g1) /\
     buddy_log g1 = buddy_log g).
Proof.
  intros Hwf. unfold ion_page_pool_alloc_pool_only.
  destruct trylock; [| left; auto].
  destruct (high_count pool =? 0) eqn:Hh; cbn [negb];
    [apply Z.eqb_eq in Hh | apply Z.eqb_neq in Hh].
  - destruct (low_count pool =? 0) eqn:Hl; cbn [negb];
      [apply Z.eqb_eq in Hl | apply Z.eqb_neq in Hl].
    + left. auto.
    + destruct (remove_wf ps pool false g Hwf Hl)
        as (pg & rest & g1 & _ & -> & Hlog & _).
      right. cbn [bind]. eauto 10.
  - destruct (remove_wf ps pool true g Hwf Hh)
      as (pg & rest & g1 & _ & -> & Hlog & _).
    right. cbn [bind]. eauto 10.
Qed.

(** What alloc_pool_only does on a well-formed pool: it always returns,
    never calls the page allocator, and returns an error exactly when it
    yields no entry, that is when the trylock fails or both tier counts
    are zero.  The error is ERR_PTR(-ENOMEM), the very code alloc returns
    when it is out of memory on the same pool; pool and globals are then
    unchanged. *)
Theorem alloc_pool_only_enomem_iff_no_entry (ps : Z) pool trylock g :
  pool_wf pool ->
  exists r pool' g',
    ion_page_pool_alloc_pool_only ps (Some pool) trylock g
    = Ok (r, Some pool', g') /\
    buddy_log g' = buddy_log g /\
    (r = ERR_PTR ENOMEM <->
     trylock = false \/ (high_count pool = 0 /\ low_count pool = 0)) /\
    (forall e, r = ERR_PTR e -> e = ENOMEM /\ pool' = pool /\ g' = g) /\
    (r = ERR_PTR ENOMEM ->
     forall from_pool,
       ion_page_pool_alloc ps (Some pool) from_pool false trylock None g
       = Ok (ERR_PTR ENOMEM, false, pool,
             log_call g (Alloc_pages (gfp_mask pool) (order pool)))).
Proof.
  intros Hwf.
  destruct (alloc_pool_only_cases ps pool trylock g Hwf)
    as [[Hcase ->] | (Htry & Hcount & pg & p1 & g1 & -> & Hlog)].
  - exists (ERR_PTR ENOMEM), pool, g.
    split; [reflexivity |]. split; [reflexivity |].
    split; [tauto |]. split.
    + intros e He. injection He as <-. auto.
    + intros _ from_pool. apply alloc_nothing_taken. exact Hcase.
  - exists (Page pg), p1, g1.
    split; [reflexivity |]. split; [exact Hlog |].
    split; [| split; intros; discriminate].
    split; [discriminate |].
    intros [Hf | [Hh Hl]]; [congruence | tauto].
Qed.

Lemma alloc_pool_only_enomem_iff_no_entry_witness :
  exists pool' g',
    ion_page_pool_alloc_pool_only 12 (Some sample_pool) true sample_globals
    = Ok (Page (hi 10), Some pool', g') /\
    buddy_log g' = [].
Proof.
  destruct (alloc_pool_only_enomem_iff_no_entry 12 sample_pool true
              sample_globals)
    as (r & pool' & g' & Hrun & Hlog & _).
  - unfold pool_wf, INT_MAX. cbn. lia.
  - vm_compute in Hrun. injection Hrun as Hr Hp Hg. subst r pool' g'.
    eexists; eexists. split; [reflexivity | exact Hlog].
Defined.

(** C2: the code at the failing input.  On a pool just created, with the
    lock free, alloc_pool_only finds nothing and returns ERR_PTR(-ENOMEM):
    not the NULL that the comment above the function announces, and not a
    result distinct from out of memory, since alloc on the same pool with
    a failing page allocator returns the same ERR_PTR(-ENOMEM). *)
Lemma alloc_pool_only_error_is_enomem :
  let empty := {| high_count := 0; low_count := 0;
                  high_items := []; low_items := [];
                  gfp_mask := 0; order := 0; cached := false |} in
  let g := {| nr_total_pages := 0; nr_indirectly_reclaimable_bytes := 0;
              buddy_log := [] |} in
  ion_page_pool_create 0 0 false true false = Some empty /\
  ion_page_pool_alloc_pool_only 12 (Some empty) true g
  = Ok (ERR_PTR ENOMEM, Some empty, g) /\
  ion_page_pool_alloc 12 (Some empty) true false true None g
  = Ok (ERR_PTR ENOMEM, false, empty, log_call g (Alloc_pages 0 0)).
Proof. repeat split. Qed.

(** End to end on a pool of order 0: nothing to take from the empty pool;
    after one free the same call returns that page and the pool and the
    counters are back where they started. *)
Example alloc_pool_only_round_trip :
  let empty := {| high_count := 0; low_count := 0;
                  high_items := []; low_items := [];
                  gfp_mask := 0; order := 0; cached := false |} in
  let g := {| nr_total_pages := 0; nr_indirectly_reclaimable_bytes := 0;
              buddy_log := [] |} in
  ion_page_pool_alloc_pool_only 12 (Some empty) true g
  = Ok (ERR_PTR ENOMEM, Some empty, g) /\
  (let '(pool, g1) := ion_page_pool_free 12 empty (lo 7) g in
   ion_page_pool_alloc_pool_only 12 (Some pool) true g1)
  = Ok (Page (lo 7), Some empty, g).
Proof. split; reflexivity. Qed.

(** ** Order of removal *)

Lemma filter_length_le {A : Type} (f : A -> bool) (l : list A) :
  (length (filter f l) <= length l)%nat.
Proof.
  induction l as [| a l IH]; cbn; [lia |]. destruct (f a); cbn; lia.
Qed.

Lemma linked_wf pool pgs :
  pool_wf pool ->
  low_count pool + Z.of_nat (length pgs) <= INT_MAX ->
  high_count pool + Z.of_nat (length pgs) <= INT_MAX ->
  pool_wf (linked pool pgs).
Proof.
  unfold pool_wf. intros (Hl & Hh & _ & _) Hlcap Hhcap.
  cbn [linked high_count low_count high_items low_items].
  rewrite !length_app, !Nat2Z.inj_add.
  pose proof (filter_length_le PageHighMem pgs).
  pose proof (filter_length_le (fun pg => negb (PageHighMem pg)) pgs).
  unfold highs, lows. lia.
Qed.

(** A run of frees links every page at the tail of its tier. *)
Lemma free_all_linked (ps : Z) pgs :
  forall pool g,
    pool_wf pool ->
    low_count pool + Z.of_nat (length pgs) <= INT_MAX ->
    high_count pool + Z.of_nat (length pgs) <= INT_MAX ->
    fst (free_all ps pool pgs g) = linked pool pgs.
Proof.
  induction pgs as [| pg rest IH]; intros pool g Hwf Hlcap Hhcap.
  - cbn. apply pool_ext; cbn; rewrite ?app_nil_r; lia || reflexivity.
  - cbn [free_all ion_page_pool_free ion_page_pool_add].
    cbn [length] in Hlcap, Hhcap. rewrite Nat2Z.inj_succ in Hlcap, Hhcap.
    destruct Hwf as (Hl & Hh & Hlmax & Hhmax). unfold INT_MAX in *.
    rewrite IH.
    + apply pool_ext;
        cbn [linked highs lows filter high_count low_count high_items
             low_items gfp_mask order cached];
        destruct (PageHighMem pg);
        cbn [negb length high_count low_count high_items low_items gfp_mask
             order cached];
        rewrite <- ?app_assoc, ?Nat2Z.inj_succ; try reflexivity;
        unfold highs, lows; rewrite ?wrap_int_id; lia.
    + unfold pool_wf, INT_MAX. destruct (PageHighMem pg);
        cbn [high_count low_count high_items low_items];
        rewrite ?length_app, ?Nat2Z.inj_add, ?wrap_int_id; cbn [length]; lia.
    + destruct (PageHighMem pg); cbn [low_count];
        rewrite ?wrap_int_id; lia.
    + destruct (PageHighMem pg); cbn [high_count];
        rewrite ?wrap_int_id; lia.
Qed.

(** alloc with [*from_pool] set, no signal pending and the lock free, on a
    well-formed pool: the first entry of the high list if there is one,
    else the first entry of the low list, else the page allocator. *)
Lemma alloc_prefers_pool (ps : Z) pool fresh g :
  pool_wf pool ->
  exists r fp pool' g',
    ion_page_pool_alloc ps (Some pool) true false true fresh g
    = Ok (r, fp, pool', g') /\
    match high_items pool, low_items pool with
    | h :: _, _ => r = Page h /\ fp = true /\ pool' = unlinked pool 0 1
    | [], l :: _ => r = Page l /\ fp = true /\ pool' = unlinked pool 1 0
    | [], [] =>
      fp = false /\ pool' = pool /\
      r = match fresh with Some pg => Page pg | None => ERR_PTR ENOMEM end
    end.
Proof.
  intros Hwf. unfold ion_page_pool_alloc. cbn [andb].
  destruct (high_count pool =? 0) eqn:Hh; cbn [negb];
    [apply Z.eqb_eq in Hh | apply Z.eqb_neq in Hh].
  - assert (Hnil : high_items pool = []).
    { destruct Hwf as (_ & Hhc & _). destruct (high_items pool); cbn in *;
        [reflexivity | lia]. }
    rewrite Hnil.
    destruct (low_count pool =? 0) eqn:Hl; cbn [negb];
      [apply Z.eqb_eq in Hl | apply Z.eqb_neq in Hl].
    + assert (Hnil' : low_items pool = []).
      { destruct Hwf as (Hlc & _). destruct (low_items pool); cbn in *;
          [reflexivity | lia]. }
      rewrite Hnil'. cbn. destruct fresh; eauto 10.
    + destruct (remove_wf ps pool false g Hwf Hl)
        as (pg & rest & g1 & -> & -> & _).
      cbn [bind]. eauto 10.
  - destruct (remove_wf ps pool true g Hwf Hh)
      as (pg & rest & g1 & -> & -> & _).
    cbn [bind]. eauto 10.
Qed.

(** C5: after any run of frees on a well-formed pool (with room left in
    the [int] counts), alloc with [*from_pool] set, no signal pending and
    the lock free returns the oldest entry of the high tier if that tier
    holds anything, else the oldest entry of the low tier, and leaves
    [*from_pool] set; each tier is a queue, entries already pooled first,
    then the freed pages of that class in the order they were freed.  With
    both tiers empty it falls back to the page allocator. *)
Theorem alloc_returns_oldest_of_highest_tier (ps : Z) pool0 pgs fresh g :
  pool_wf pool0 ->
  low_count pool0 + Z.of_nat (length pgs) <= INT_MAX ->
  high_count pool0 + Z.of_nat (length pgs) <= INT_MAX ->
  exists r fp pool' g',
    (let '(pool, g1) := free_all ps pool0 pgs g in
     ion_page_pool_alloc ps (Some pool) true false true fresh g1)
    = Ok (r, fp, pool', g') /\
    match high_items pool0 ++ highs pgs, low_items pool0 ++ lows pgs with
    | h :: _, _ => r = Page h /\ fp = true
    | [], l :: _ => r = Page l /\ fp = true
    | [], [] =>
      fp = false /\
      r = match fresh with Some pg => Page pg | None => ERR_PTR ENOMEM end
    end.
Proof.
  intros Hwf Hlcap Hhcap.
  pose proof (free_all_linked ps pgs pool0 g Hwf Hlcap Hhcap) as Hlinked.
  destruct (free_all ps pool0 pgs g) as [pool g1]. cbn [fst] in Hlinked.
  subst pool.
  destruct (alloc_prefers_pool ps (linked pool0 pgs) fresh g1
              (linked_wf pool0 pgs Hwf Hlcap Hhcap))
    as (r & fp & pool' & g' & Hrun & Hshape).
  exists r, fp, pool', g'. split; [exact Hrun |].
  cbn [linked high_items low_items] in Hshape.
  destruct (high_items pool0 ++ highs pgs) as [| h hs];
    [destruct (low_items pool0 ++ lows pgs) as [| l ls] |]; tauto.
Qed.

Lemma alloc_returns_oldest_of_highest_tier_witness :
  exists fp pool' g',
    (let '(pool, g1) :=
       free_all 12 sample_pool [lo 4; hi 12] sample_globals in
     ion_page_pool_alloc 12 (Some pool) true false true None g1)
    = Ok (Page (hi 10), fp, pool', g').
Proof.
  destruct (alloc_returns_oldest_of_highest_tier 12 sample_pool
              [lo 4; hi 12] None sample_globals)
    as (r & fp & pool' & g' & Hrun & Hr & _).
  - unfold pool_wf, INT_MAX. cbn. lia.
  - unfold INT_MAX. cbn. lia.
  - unfold INT_MAX. cbn. lia.
  - subst r. exists fp, pool', g'. exact Hrun.
Defined.

(** The example of the specification: free A (low) then B (low) on a pool
    just created; alloc returns A and leaves B pooled. *)
Lemma alloc_after_two_low_frees (ps gfp ord : Z) (c stale : bool) a b g :
  PageHighMem a = false -> PageHighMem b = false ->
  exists pool0 pool' g',
    ion_page_pool_create gfp ord c true stale = Some pool0 /\
    (let '(pool, g1) := free_all ps pool0 [a; b] g in
     ion_page_pool_alloc ps (Some pool) true false true None g1)
    = Ok (Page a, true, pool', g') /\
    low_items pool' = [b] /\ high_items pool' = [].
Proof.
  intros Ha Hb. eexists; eexists; eexists. split; [reflexivity |].
  cbn [free_all ion_page_pool_free ion_page_pool_add].
  rewrite Ha, Hb. cbn. split; [reflexivity | split; reflexivity].
Qed.

(** ** The shrinker *)

Lemma free_pages_log pool pg g :
  buddy_log (ion_page_pool_free_pages pool pg g)
  = buddy_log g ++ [Free_pages pg (order pool)].
Proof. reflexivity. Qed.

Lemma wf_count_nil pool :
  pool_wf pool ->
  (low_count pool = 0 -> low_items pool = []) /\
  (high_count pool = 0 -> high_items pool = []).
Proof.
  intros (Hl & Hh & _). split; intros H0.
  - destruct (low_items pool); [reflexivity | cbn in *; lia].
  - destruct (high_items pool); [reflexivity | cbn in *; lia].
Qed.

Lemma shrink_loop_spec (ps : Z) fuel :
  forall pool high nr freed g,
    pool_wf pool -> 0 <= order pool <= 30 ->
    (length (low_items pool) + length (high_items pool) < fuel)%nat ->
    0 <= freed -> nr + 2 ^ order pool <= 2 ^ 31 ->
    exists k j g',
      shrink_loop ps fuel pool high nr freed g
      = Ok (freed + Z.of_nat (k + j) * 2 ^ order pool, unlinked pool k j, g') /\
      (k <= length (low_items pool))%nat /\
      (j <= length (high_items pool))%nat /\
      ((0 < j)%nat -> k = length (low_items pool) /\ high = true) /\
      buddy_log g'
      = buddy_log g ++
        map (fun pg => Free_pages pg (order pool))
            (firstn k (low_items pool) ++ firstn j (high_items pool)) /\
      (nr <= freed + Z.of_nat (k + j) * 2 ^ order pool \/
       (k = length (low_items pool) /\
        (high = false \/ j = length (high_items pool)))) /\
      ((0 < k + j)%nat ->
       freed + Z.of_nat (k + j) * 2 ^ order pool - 2 ^ order pool < nr).
Proof.
  induction fuel as [| fuel IH]; intros pool high nr freed g Hwf Hord Hfuel
                                        Hfreed Hcap; [lia |].
  pose proof (pow2_le_30 _ Hord) as Hu.
  cbn [shrink_loop].
  destruct (freed <? nr) eqn:Hlt;
    [apply Z.ltb_lt in Hlt | apply Z.ltb_ge in Hlt].
  2:{ exists 0%nat, 0%nat, g. rewrite unlinked_none. cbn.
      rewrite app_nil_r, Z.add_0_r. repeat split; lia. }
  destruct (low_count pool =? 0) eqn:Hlow; cbn [negb];
    [apply Z.eqb_eq in Hlow | apply Z.eqb_neq in Hlow].
  - destruct (wf_count_nil pool Hwf) as [Hnil _].
    specialize (Hnil Hlow).
    destruct (high && negb (high_count pool =? 0)) eqn:Hevict.
    + apply andb_true_iff in Hevict. destruct Hevict as [-> Hhc].
      apply negb_true_iff, Z.eqb_neq in Hhc.
      destruct (remove_wf ps pool true g Hwf Hhc)
        as (pg & rest & g1 & Hitems & -> & Hlog & _).
      cbn [bind]. cbn [unlinked order].
      rewrite shl1_pow, wrap_int_id by lia.
      destruct (IH (unlinked pool 0 1) true nr (freed + 2 ^ order pool)
                   (ion_page_pool_free_pages (unlinked pool 0 1) pg g1))
        as (k & j & g' & Hrun & Hk & Hj & Hhigh & Hlog' & Hstop & Hlast).
      * apply unlinked_wf; [exact Hwf | lia | rewrite Hitems; cbn; lia].
      * exact Hord.
      * cbn [unlinked low_items high_items].
        rewrite Hitems, Hnil in *. cbn [skipn length] in *. lia.
      * lia.
      * exact Hcap.
      * cbn [unlinked low_items high_items order] in *.
        rewrite Hitems, Hnil in *. cbn [skipn length] in *.
        assert (k = 0%nat) by lia. subst k.
        exists 0%nat, (S j), g'.
        rewrite Hrun, unlinked_unlinked. cbn [Nat.add firstn app map] in *.
        rewrite Hlog', free_pages_log, Hlog, <- app_assoc. cbn [app].
        cbn [order unlinked].
        assert (HU : Z.of_nat (S j) * 2 ^ order pool
                     = 2 ^ order pool + Z.of_nat j * 2 ^ order pool) by lia.
        rewrite HU.
        split; [do 3 f_equal; lia |].
        split; [lia |]. split; [lia |].
        split; [auto |].
        split; [reflexivity |].
        split; [destruct Hstop as [Hs | [_ [Hs | Hs]]];
                [left; lia | discriminate | right; auto] |].
        intros _. destruct j as [| j'].
        -- cbn. lia.
        -- specialize (Hlast ltac:(lia)). lia.
    + exists 0%nat, 0%nat, g. rewrite unlinked_none. cbn.
      rewrite app_nil_r, Z.add_0_r, Hnil.
      repeat split; try lia.
      right. split; [reflexivity |].
      apply andb_false_iff in Hevict. destruct Hevict as [-> | Hhc]; [auto |].
      apply negb_false_iff, Z.eqb_eq in Hhc.
      destruct (wf_count_nil pool Hwf) as [_ Hhnil].
      rewrite (Hhnil Hhc). auto.
  - destruct (remove_wf ps pool false g Hwf Hlow)
      as (pg & rest & g1 & Hitems & -> & Hlog & _).
    cbn [bind]. cbn [unlinked order].
    rewrite shl1_pow, wrap_int_id by lia.
    set (pool1 := unlinked pool 1 0).
    destruct (IH pool1 high nr (freed + 2 ^ order pool)
                 (ion_page_pool_free_pages pool1 pg g1))
      as (k & j & g' & Hrun & Hk & Hj & Hhigh & Hlog' & Hstop & Hlast).
    + apply unlinked_wf; [exact Hwf | rewrite Hitems; cbn; lia | lia].
    + exact Hord.
    + subst pool1. cbn [unlinked low_items high_items].
      rewrite Hitems in *. cbn [skipn length] in *. lia.
    + lia.
    + exact Hcap.
    + subst pool1. cbn [unlinked low_items high_items order] in *.
      rewrite Hitems in *. cbn [skipn length] in *.
      exists (S k), j, g'.
      rewrite Hrun, unlinked_unlinked. cbn [Nat.add firstn app map].
      rewrite Hlog', free_pages_log, Hlog, <- app_assoc. cbn [app].
      cbn [order unlinked].
      assert (HU : Z.of_nat (S (k + j)) * 2 ^ order pool
                   = 2 ^ order pool + Z.of_nat (k + j) * 2 ^ order pool) by lia.
      rewrite HU.
      split; [do 3 f_equal; lia |].
      split; [lia |]. split; [exact Hj |].
      split; [intros Hpos; destruct (Hhigh Hpos); split; congruence |].
      split; [reflexivity |].
      split; [destruct Hstop as [Hs | [Hs Hs']]; [left; lia | right; split; [congruence | exact Hs']] |].
      intros _. destruct (Nat.eq_dec (k + j) 0) as [Hz | Hnz].
      * rewrite Hz. cbn. lia.
      * specialize (Hlast ltac:(lia)). lia.
Qed.

Lemma round_up_bound (m nr u : Z) :
  0 < u -> 0 < nr -> 0 <= m ->
  (0 < m -> m * u - u < nr) ->
  m * u <= round_up nr u.
Proof.
  intros Hu Hnr Hm Hlast. unfold round_up.
  apply Z.mul_le_mono_nonneg_r; [lia |].
  apply Z.div_le_lower_bound; [exact Hu |].
  destruct (Z.eq_dec m 0) as [-> | Hnz]; [lia |].
  specialize (Hlast ltac:(lia)). lia.
Qed.

(** C4: on a well-formed pool of order at most 30, with a positive
    nr_to_scan small enough that the [int] tally cannot overflow, shrink
    unlinks the first [k] low entries and then the first [j] high entries
    and hands them to the page allocator in that order.  No high entry goes
    before the low list is empty, and none at all unless the caller is
    kswapd or asks with __GFP_HIGHMEM.  It stops when the tally has reached
    nr_to_scan or the eligible tiers are empty, and the tally it returns,
    (k + j) * 2^order, is at most nr_to_scan rounded up to a multiple of
    2^order. *)
Theorem shrink_drains_low_then_high (ps hm : Z) pool gfp nr_to_scan kswapd g :
  pool_wf pool ->
  0 <= order pool <= 30 ->
  0 < nr_to_scan ->
  nr_to_scan + 2 ^ order pool <= 2 ^ 31 ->
  let high := kswapd || negb (Z.land gfp hm =? 0) in
  exists k j g',
    ion_page_pool_shrink ps hm pool gfp nr_to_scan kswapd g
    = Ok (Z.of_nat (k + j) * 2 ^ order pool, unlinked pool k j, g') /\
    (k <= length (low_items pool))%nat /\
    (j <= length (high_items pool))%nat /\
    ((0 < j)%nat -> k = length (low_items pool) /\ high = true) /\
    buddy_log g'
    = buddy_log g ++
      map (fun pg => Free_pages pg (order pool))
          (firstn k (low_items pool) ++ firstn j (high_items pool)) /\
    (nr_to_scan <= Z.of_nat (k + j) * 2 ^ order pool \/
     (k = length (low_items pool) /\
      (high = false \/ j = length (high_items pool)))) /\
    Z.of_nat (k + j) * 2 ^ order pool
    <= round_up nr_to_scan (2 ^ order pool).
Proof.
  intros Hwf Hord Hnr Hcap high.
  unfold ion_page_pool_shrink.
  replace (if kswapd then true else negb (Z.land gfp hm =? 0)) with high
    by (subst high; destruct kswapd; reflexivity).
  destruct (nr_to_scan =? 0) eqn:Hz; [apply Z.eqb_eq in Hz; lia |].
  destruct (shrink_loop_spec ps (shrink_fuel pool) pool high nr_to_scan 0 g
              Hwf Hord ltac:(unfold shrink_fuel; lia) ltac:(lia) Hcap)
    as (k & j & g' & Hrun & Hk & Hj & Hhigh & Hlog & Hstop & Hlast).
  rewrite Z.add_0_l in *.
  exists k, j, g'. repeat (split; [assumption |]).
  pose proof (pow2_le_30 _ Hord) as Hu.
  apply round_up_bound; try lia.
Qed.

Lemma shrink_drains_low_then_high_witness :
  exists k j g',
    ion_page_pool_shrink 12 2 sample_pool 0 16 true sample_globals
    = Ok (Z.of_nat (k + j) * 4, unlinked sample_pool k j, g') /\
    Z.of_nat (k + j) * 4 <= 16.
Proof.
  destruct (shrink_drains_low_then_high 12 2 sample_pool 0 16 true
              sample_globals)
    as (k & j & g' & Hrun & _ & _ & _ & _ & _ & Hbound).
  - unfold pool_wf, INT_MAX. cbn. lia.
  - cbn. lia.
  - lia.
  - cbn. lia.
  - exists k, j, g'. split; [exact Hrun | exact Hbound].
Defined.

Example shrink_sample_privileged :
  ion_page_pool_shrink 12 2 sample_pool 0 16 true sample_globals
  = Ok (16,
        {| high_count := 1; low_count := 0;
           high_items := [hi 11]; low_items := [];
           gfp_mask := 0; order := 2; cached := false |},
        {| nr_total_pages := 4; nr_indirectly_reclaimable_bytes := 16384;
           buddy_log := [Free_pages (lo 1) 2; Free_pages (lo 2) 2;
                         Free_pages (lo 3) 2; Free_pages (hi 10) 2] |}).
Proof. reflexivity. Qed.

Example shrink_sample_unprivileged :
  ion_page_pool_shrink 12 2 sample_pool 0 16 false sample_globals
  = Ok (12,
        {| high_count := 2; low_count := 0;
           high_items := [hi 10; hi 11]; low_items := [];
           gfp_mask := 0; order := 2; cached := false |},
        {| nr_total_pages := 8; nr_indirectly_reclaimable_bytes := 32768;
           buddy_log := [Free_pages (lo 1) 2; Free_pages (lo 2) 2;
                         Free_pages (lo 3) 2] |}).
Proof. reflexivity. Qed.

(* ------------------------------------------------------------------ *)
(** ** Further properties of the pool *)

(** The two ways alloc ends on a well-formed pool when no signal is
    pending: a page unlinked from the pool, or the page allocator. *)
Lemma alloc_cases (ps : Z) pool from_pool trylock fresh g :
  pool_wf pool ->
  (from_pool = true /\ trylock = true /\
   (high_count pool <> 0 \/ low_count pool <> 0) /\
   exists (high : bool) pg rest g1,
     (if high then high_count pool <> 0
      else high_count pool = 0 /\ low_count pool <> 0) /\
     (if high then high_items pool else low_items pool) = pg :: rest /\
     ion_page_pool_alloc ps (Some pool) from_pool false trylock fresh g
     = Ok (Page pg, true,
           unlinked pool (if high then 0 else 1) (if high then 1 else 0),
           g1) /\
     buddy_log g1 = buddy_log g /\
     nr_total_pages g1
     = wrap_long (nr_total_pages g - shl1 (order pool))) \/
  ((from_pool = false \/ trylock = false \/
    (high_count pool = 0 /\ low_count pool = 0)) /\
   ion_page_pool_alloc ps (Some pool) from_pool false trylock fresh g
   = Ok (match fresh with Some pg => Page pg | None => ERR_PTR ENOMEM end,
         false, pool,
         log_call g (Alloc_pages (gfp_mask pool) (order pool)))).
Proof.
  intros Hwf. unfold ion_page_pool_alloc.
  destruct from_pool; [| right; split; [auto |]; destruct fresh; reflexivity].
  destruct trylock;
    [| right; split; [auto |]; destruct fresh; reflexivity].
  cbn [andb].
  destruct (high_count pool =? 0) eqn:Hh; cbn [negb];
    [apply Z.eqb_eq in Hh | apply Z.eqb_neq in Hh].
  - destruct (low_count pool =? 0) eqn:Hl; cbn [negb];
      [apply Z.eqb_eq in Hl | apply Z.eqb_neq in Hl].
    + right. split; [auto |]. destruct fresh; reflexivity.
    + destruct (remove_wf ps pool false g Hwf Hl)
        as (pg & rest & g1 & Hitems & -> & Hlog & Hnr).
      left. repeat (split; [auto |]).
      exists false, pg, rest, g1. cbn [bind]. auto.
  - destruct (remove_wf ps pool true g Hwf Hh)
      as (pg & rest & g1 & Hitems & -> & Hlog & Hnr).
    left. repeat (split; [auto |]).
    exists true, pg, rest, g1. cbn [bind]. auto.
Qed.

(** The same for alloc_pool_only. *)
Lemma alloc_pool_only_takes (ps : Z) pool trylock g :
  pool_wf pool ->
  (trylock = true /\ (high_count pool <> 0 \/ low_count pool <> 0) /\
   exists (high : bool) pg rest g1,
     (if high then high_count pool <> 0
      else high_count pool = 0 /\ low_count pool <> 0) /\
     (if high then high_items pool else low_items pool) = pg :: rest /\
     ion_page_pool_alloc_pool_only ps (Some pool) trylock g
     = Ok (Page pg,
           Some (unlinked pool (if high then 0 else 1)
                          (if high then 1 else 0)),
           g1) /\
     buddy_log g1 = buddy_log g /\
     nr_total_pages g1
     = wrap_long (nr_total_pages g - shl1 (order pool))) \/
  ((trylock = false \/ (high_count pool = 0 /\ low_count pool = 0)) /\
   ion_page_pool_alloc_pool_only ps (Some pool) trylock g
   = Ok (ERR_PTR ENOMEM, Some pool, g)).
Proof.
  intros Hwf. unfold ion_page_pool_alloc_pool_only.
  destruct trylock; [| right; auto].
  destruct (high_count pool =? 0) eqn:Hh; cbn [negb];
    [apply Z.eqb_eq in Hh | apply Z.eqb_neq in Hh].
  - destruct (low_count pool =? 0) eqn:Hl; cbn [negb];
      [apply Z.eqb_eq in Hl | apply Z.eqb_neq in Hl].
    + right. auto.
    + destruct (remove_wf ps pool false g Hwf Hl)
        as (pg & rest & g1 & Hitems & -> & Hlog & Hnr).
      left. repeat (split; [auto |]).
      exists false, pg, rest, g1. cbn [bind]. auto.
  - destruct (remove_wf ps pool true g Hwf Hh)
      as (pg & rest & g1 & Hitems & -> & Hlog & Hnr).
    left. repeat (split; [auto |]).
    exists true, pg, rest, g1. cbn [bind]. auto.
Qed.

(** What the loop of the shrinker does to a well-formed pool, for any
    budget and any tally it starts from. *)
Lemma shrink_loop_unlinks (ps : Z) fuel :
  forall pool high nr freed g,
    pool_wf pool ->
    (length (low_items pool) + length (high_items pool) < fuel)%nat ->
    exists r k j g',
      shrink_loop ps fuel pool high nr freed g
      = Ok (r, unlinked pool k j, g') /\
      (k <= length (low_items pool))%nat /\
      (j <= length (high_items pool))%nat /\
      (0 <= order pool <= 30 ->
       nr_total_pages g
       = (low_count pool + high_count pool) * 2 ^ order pool ->
       nr_total_pages g'
       = nr_total_pages g - Z.of_nat (k + j) * 2 ^ order pool).
Proof.
  induction fuel as [| fuel IH]; intros pool high nr freed g Hwf Hfuel;
    [lia |].
  assert (Hstop : exists r k j g',
             Ok (freed, pool, g) = Ok (r, unlinked pool k j, g') /\
             (k <= length (low_items pool))%nat /\
             (j <= length (high_items pool))%nat /\
             (0 <= order pool <= 30 ->
              nr_total_pages g
              = (low_count pool + high_count pool) * 2 ^ order pool ->
              nr_total_pages g'
              = nr_total_pages g - Z.of_nat (k + j) * 2 ^ order pool)).
  { exists freed, 0%nat, 0%nat, g. rewrite unlinked_none.
    repeat split; try lia. }
  assert (Hturn : forall (tier : bool),
    (if tier then high_count pool else low_count pool) <> 0 ->
    exists r k j g',
      (' (pg, pool', g') <- ion_page_pool_remove ps pool tier g;;
       shrink_loop ps fuel pool' high nr
                   (wrap_int (freed + shl1 (order pool')))
                   (ion_page_pool_free_pages pool' pg g'))
      = Ok (r, unlinked pool k j, g') /\
      (k <= length (low_items pool))%nat /\
      (j <= length (high_items pool))%nat /\
      (0 <= order pool <= 30 ->
       nr_total_pages g
       = (low_count pool + high_count pool) * 2 ^ order pool ->
       nr_total_pages g'
       = nr_total_pages g - Z.of_nat (k + j) * 2 ^ order pool)).
  { intros tier Hc.
    destruct (remove_wf ps pool tier g Hwf Hc)
      as (pg & rest & g1 & Hitems & -> & Hlog & Hnr).
    cbn [bind].
    set (a := if tier then 0%nat else 1%nat) in *.
    set (b := if tier then 1%nat else 0%nat) in *.
    assert (Hab : (a <= length (low_items pool))%nat /\
                  (b <= length (high_items pool))%nat /\
                  (a + b = 1)%nat /\
                  S (length (skipn a (low_items pool))
                     + length (skipn b (high_items pool)))
                  = (length (low_items pool)
                     + length (high_items pool))%nat).
    { subst a b. destruct tier; rewrite Hitems; cbn; lia. }
    destruct Hab as (Ha & Hb & Hone & Hlen).
    destruct (IH (unlinked pool a b) high nr
                 (wrap_int (freed + shl1 (order (unlinked pool a b))))
                 (ion_page_pool_free_pages (unlinked pool a b) pg g1))
      as (r & k & j & g' & Hrun & Hk & Hj & Hacc).
    - apply unlinked_wf; assumption.
    - cbn [unlinked low_items high_items]. lia.
    - cbn [unlinked low_items high_items order high_count low_count] in *.
      rewrite length_skipn in Hk, Hj.
      exists r, (a + k)%nat, (b + j)%nat, g'.
      rewrite Hrun, unlinked_unlinked.
      split; [reflexivity |]. split; [lia |]. split; [lia |].
      intros Hord Hinv.
      pose proof (pow2_le_30 _ Hord) as Hu.
      destruct Hwf as (Hl & Hh & Hlmax & Hhmax). unfold INT_MAX in *.
      assert (Hpos : 1 <= low_count pool + high_count pool)
        by (destruct tier; lia).
      assert (Hg1 : nr_total_pages g1
                    = nr_total_pages g - 2 ^ order pool).
      { rewrite Hnr, shl1_pow by assumption. apply wrap_long_id. nia. }
      rewrite Hacc; cbn [ion_page_pool_free_pages log_call nr_total_pages].
      + rewrite Hg1.
        replace (Z.of_nat (a + k + (b + j)))
          with (1 + Z.of_nat (k + j)) by lia.
        ring.
      + exact Hord.
      + rewrite Hg1, Hinv.
        assert (Z.of_nat a + Z.of_nat b = 1) by lia. nia. }
  cbn [shrink_loop]. destruct (freed <? nr); [| exact Hstop].
  destruct (low_count pool =? 0) eqn:Hlow; cbn [negb];
    [| apply (Hturn false); apply Z.eqb_neq; exact Hlow].
  destruct high; cbn [andb]; [| exact Hstop].
  destruct (high_count pool =? 0) eqn:Hhigh; cbn [negb]; [exact Hstop |].
  apply (Hturn true). apply Z.eqb_neq. exact Hhigh.
Qed.

Lemma accounted_after_pop pool g g1 (tier : bool) pg rest :
  0 <= order pool <= 30 ->
  pool_accounted pool g ->
  (if tier then high_items pool else low_items pool) = pg :: rest ->
  nr_total_pages g1 = wrap_long (nr_total_pages g - shl1 (order pool)) ->
  pool_accounted (unlinked pool (if tier then 0 else 1)
                           (if tier then 1 else 0)) g1.
Proof.
  intros Hord [Hwf Hacc] Hitems Hnr.
  pose proof (pow2_le_30 _ Hord) as Hu.
  split.
  - apply unlinked_wf; [exact Hwf | |]; destruct tier; rewrite ?Hitems;
      cbn; lia.
  - destruct Hwf as (Hl & Hh & Hlmax & Hhmax). unfold INT_MAX in *.
    assert (Hpos : 1 <= low_count pool + high_count pool)
      by (destruct tier; rewrite Hitems in *; cbn [length] in *; lia).
    rewrite Hnr, shl1_pow, wrap_long_id by (assumption || nia).
    cbn [unlinked low_count high_count order].
    rewrite Hacc. destruct tier; cbn; ring.
Qed.

(** X14: the counts, the lists and the global page counter stay in step.
    On a pool of order at most 30 that is well-formed and accounted for,
    free (with room left in the count), alloc, alloc_pool_only and shrink
    all return, and leave the pool well-formed with the counter equal to
    (low_count + high_count) * 2^order; a read of the counter then gives
    the number of pooled pages, never the clamp. *)
Theorem accounting_invariant (ps hm : Z) pool g :
  0 <= order pool <= 30 ->
  pool_accounted pool g ->
  (forall pg,
     (if PageHighMem pg then high_count pool else low_count pool) < INT_MAX ->
     pool_accounted (fst (ion_page_pool_free ps pool pg g))
                    (snd (ion_page_pool_free ps pool pg g)) /\
     order (fst (ion_page_pool_free ps pool pg g)) = order pool) /\
  (forall from_pool sig trylock fresh,
     exists r fp' pool' g',
       ion_page_pool_alloc ps (Some pool) from_pool sig trylock fresh g
       = Ok (r, fp', pool', g') /\
       pool_accounted pool' g' /\ order pool' = order pool) /\
  (forall trylock,
     exists r pool' g',
       ion_page_pool_alloc_pool_only ps (Some pool) trylock g
       = Ok (r, Some pool', g') /\
       pool_accounted pool' g' /\ order pool' = order pool) /\
  (forall gfp nr_to_scan kswapd,
     exists r pool' g',
       ion_page_pool_shrink ps hm pool gfp nr_to_scan kswapd g
       = Ok (r, pool', g') /\
       pool_accounted pool' g' /\ order pool' = order pool) /\
  fst (ion_page_pool_nr_pages g)
  = Z.of_nat (length (low_items pool) + length (high_items pool))
    * 2 ^ order pool.
Proof.
  intros Hord Hinv. pose proof Hinv as [Hwf Hacc].
  pose proof (pow2_le_30 _ Hord) as Hu.
  pose proof Hwf as (Hl & Hh & Hlmax & Hhmax). unfold INT_MAX in *.
  split; [| split; [| split; [| split]]].
  - intros pg Hroom. unfold ion_page_pool_free, ion_page_pool_add.
    cbn [fst snd]. split; [| destruct (PageHighMem pg); reflexivity].
    split.
    + unfold pool_wf, INT_MAX.
      destruct (PageHighMem pg);
        cbn [high_count low_count high_items low_items];
        rewrite ?length_app, ?Nat2Z.inj_add, ?wrap_int_id; cbn [length];
        lia.
    + cbn [account nr_total_pages].
      rewrite shl1_pow, wrap_long_id by (assumption || nia).
      rewrite Hacc.
      destruct (PageHighMem pg); cbn [high_count low_count order];
        rewrite wrap_int_id by lia; ring.
  - intros from_pool sig trylock fresh. destruct sig.
    + exists (ERR_PTR EINTR), from_pool, pool, g. auto.
    + destruct (alloc_cases ps pool from_pool trylock fresh g Hwf)
        as [(_ & _ & _ & tier & pg & rest & g1 & _ & Hitems & -> & _ & Hnr)
           | [_ ->]].
      * eexists; eexists; eexists; eexists. split; [reflexivity |].
        split; [| reflexivity].
        apply (accounted_after_pop pool g g1 tier pg rest); assumption.
      * eexists; eexists; eexists; eexists. split; [reflexivity |].
        split; [| reflexivity]. split; [exact Hwf | exact Hacc].
  - intros trylock.
    destruct (alloc_pool_only_takes ps pool trylock g Hwf)
      as [(_ & _ & tier & pg & rest & g1 & _ & Hitems & -> & _ & Hnr)
         | [_ ->]].
    + eexists; eexists; eexists. split; [reflexivity |].
      split; [| reflexivity].
      apply (accounted_after_pop pool g g1 tier pg rest); assumption.
    + eexists; eexists; eexists. split; [reflexivity |]. auto.
  - intros gfp nr kswapd. unfold ion_page_pool_shrink.
    destruct (nr =? 0); [eexists; eexists; eexists; auto |].
    destruct (shrink_loop_unlinks ps (shrink_fuel pool) pool
                (if kswapd then true else negb (Z.land gfp hm =? 0))
                nr 0 g Hwf ltac:(unfold shrink_fuel; lia))
      as (r & k & j & g' & -> & Hk & Hj & Hnr).
    exists r, (unlinked pool k j), g'. split; [reflexivity |].
    split; [| reflexivity]. split; [apply unlinked_wf; assumption |].
    rewrite (Hnr Hord Hacc), Hacc.
    cbn [unlinked low_count high_count order].
    rewrite Nat2Z.inj_add. ring.
  - unfold ion_page_pool_nr_pages.
    assert (Hnn : 0 <= nr_total_pages g) by nia.
    apply Z.ltb_ge in Hnn. rewrite Hnn. cbn [fst].
    rewrite Hacc, Hl, Hh, Nat2Z.inj_add. reflexivity.
Qed.

Lemma accounting_invariant_witness :
  exists r pool' g',
    ion_page_pool_shrink 12 2 sample_pool 0 6 true sample_globals
    = Ok (r, pool', g') /\
    pool_accounted pool' g'.
Proof.
  assert (Hinv : pool_accounted sample_pool sample_globals)
    by (unfold pool_accounted, pool_wf, INT_MAX; cbn; lia).
  destruct (accounting_invariant 12 2 sample_pool sample_globals
              ltac:(cbn; lia) Hinv)
    as (_ & _ & _ & Hshrink & _).
  destruct (Hshrink 0 6 true) as (r & pool' & g' & Hrun & Hacc & _).
  exists r, pool', g'. split; assumption.
Defined.

(** X15: [*from_pool] tells the truth.  With no signal pending, alloc on
    a well-formed pool leaves [*from_pool] set exactly when it was set on
    entry, the lock was free and a tier count was not zero; the result is
    then the first entry of that tier and the page allocator has not been
    called.  In every other case the pool and the counter are untouched,
    the page allocator has been called once, and the result is its page or
    ERR_PTR(-ENOMEM). *)
Theorem alloc_from_pool_flag (ps : Z) pool from_pool trylock fresh g :
  pool_wf pool ->
  exists r fp' pool' g',
    ion_page_pool_alloc ps (Some pool) from_pool false trylock fresh g
    = Ok (r, fp', pool', g') /\
    (fp' = true <->
     from_pool = true /\ trylock = true /\
     (high_count pool <> 0 \/ low_count pool <> 0)) /\
    (fp' = true ->
     buddy_log g' = buddy_log g /\
     exists pg,
       r = Page pg /\
       (high_items pool = pg :: high_items pool' /\
        low_items pool = low_items pool' \/
        high_items pool = [] /\ high_items pool' = [] /\
        low_items pool = pg :: low_items pool')) /\
    (fp' = false ->
     pool' = pool /\
     nr_total_pages g' = nr_total_pages g /\
     buddy_log g'
     = buddy_log g ++ [Alloc_pages (gfp_mask pool) (order pool)] /\
     r = match fresh with Some pg => Page pg | None => ERR_PTR ENOMEM end).
Proof.
  intros Hwf.
  destruct (alloc_cases ps pool from_pool trylock fresh g Hwf)
    as [(Hfp & Htl & Hcount & tier & pg & rest & g1 & Htier & Hitems & ->
         & Hlog & _)
       | [Hnot ->]].
  - eexists; eexists; eexists; eexists. split; [reflexivity |].
    split; [tauto |]. split; [| discriminate].
    intros _. split; [exact Hlog |]. exists pg. split; [reflexivity |].
    destruct tier; cbn [unlinked high_items low_items skipn].
    + left. rewrite Hitems. auto.
    + right. destruct Htier as [Hh0 _].
      destruct (wf_count_nil pool Hwf) as [_ Hnil].
      rewrite (Hnil Hh0), Hitems. auto.
  - eexists; eexists; eexists; eexists. split; [reflexivity |].
    split; [| split; [discriminate |]].
    + split; [discriminate |]. intros (-> & -> & Hc).
      destruct Hnot as [Hf | [Hf | [Hh Hl]]]; try discriminate. lia.
    + intros _. repeat split.
Qed.

Lemma alloc_from_pool_flag_witness :
  exists r pool' g',
    ion_page_pool_alloc 12 (Some sample_pool) true false false
                        (Some (lo 9)) sample_globals
    = Ok (r, false, pool', g') /\
    pool' = sample_pool.
Proof.
  destruct (alloc_from_pool_flag 12 sample_pool true false (Some (lo 9))
              sample_globals)
    as (r & fp' & pool' & g' & Hrun & _ & _ & Hfalse).
  - unfold pool_wf, INT_MAX. cbn. lia.
  - assert (Hfp : fp' = false)
      by (vm_compute in Hrun; injection Hrun as _ Hfp _ _; congruence).
    subst fp'. destruct (Hfalse eq_refl) as (Hpool & _).
    exists r, pool', g'. split; assumption.
Defined.

Lemma total_wf pool (high : bool) :
  pool_wf pool ->
  0 <= order pool <= 30 ->
  (low_count pool + (if high then high_count pool else 0)) * 2 ^ order pool
  < 2 ^ 31 ->
  ion_page_pool_total pool high
  = (low_count pool + (if high then high_count pool else 0))
    * 2 ^ order pool.
Proof.
  intros (Hl & Hh & Hlmax & Hhmax) Hord Hfit. unfold INT_MAX in *.
  pose proof (pow2_le_30 _ Hord) as Hu.
  unfold ion_page_pool_total.
  destruct high.
  - rewrite (wrap_int_id (low_count pool + high_count pool)) by nia.
    rewrite Z.shiftl_mul_pow2 by lia. apply wrap_int_id. nia.
  - rewrite Z.add_0_r in *.
    rewrite Z.shiftl_mul_pow2 by lia. apply wrap_int_id. nia.
Qed.

(** X16: ion_page_pool_total() counts pages, and the high tier only on
    request.  On a well-formed pool of order at most 30 whose pages fit an
    [int], total(false) is the number of low entries times 2^order,
    total(true) adds the high entries, and total(false) is at most
    total(true). *)
Theorem total_counts_pages pool :
  pool_wf pool ->
  0 <= order pool <= 30 ->
  (low_count pool + high_count pool) * 2 ^ order pool < 2 ^ 31 ->
  ion_page_pool_total pool false
  = Z.of_nat (length (low_items pool)) * 2 ^ order pool /\
  ion_page_pool_total pool true
  = Z.of_nat (length (low_items pool) + length (high_items pool))
    * 2 ^ order pool /\
  0 <= ion_page_pool_total pool false <= ion_page_pool_total pool true.
Proof.
  intros Hwf Hord Hfit. pose proof Hwf as (Hl & Hh & _).
  pose proof (pow2_le_30 _ Hord) as Hu.
  rewrite (total_wf pool false), (total_wf pool true) by (assumption || nia).
  rewrite Nat2Z.inj_add, <- Hl, <- Hh. repeat split; nia.
Qed.

Lemma total_counts_pages_witness :
  ion_page_pool_total sample_pool false = 3 * 4 /\
  ion_page_pool_total sample_pool true = 5 * 4.
Proof.
  destruct (total_counts_pages sample_pool) as (Hlow & Hall & _).
  - unfold pool_wf, INT_MAX. cbn. lia.
  - cbn. lia.
  - cbn. lia.
  - split; [exact Hlow | exact Hall].
Defined.

(** X17: a budget that covers the eligible tiers empties them.  When
    nr_to_scan is at least the pages of the low tier, plus those of the
    high tier for a privileged caller, shrink returns exactly
    ion_page_pool_total() for that privilege, leaves the low tier empty,
    leaves the high tier empty for a privileged caller and untouched
    otherwise, and a following query with nr_to_scan = 0 returns 0. *)
Theorem shrink_full_drain (ps hm : Z) pool gfp nr_to_scan kswapd g :
  pool_wf pool ->
  0 <= order pool <= 30 ->
  0 < nr_to_scan ->
  nr_to_scan + 2 ^ order pool <= 2 ^ 31 ->
  let high := kswapd || negb (Z.land gfp hm =? 0) in
  (low_count pool + (if high then high_count pool else 0)) * 2 ^ order pool
  <= nr_to_scan ->
  exists pool' g',
    ion_page_pool_shrink ps hm pool gfp nr_to_scan kswapd g
    = Ok (ion_page_pool_total pool high, pool', g') /\
    low_items pool' = [] /\ low_count pool' = 0 /\
    (if high then high_items pool' = [] /\ high_count pool' = 0
     else high_items pool' = high_items pool /\
          high_count pool' = high_count pool) /\
    ion_page_pool_shrink ps hm pool' gfp 0 kswapd g' = Ok (0, pool', g').
Proof.
  intros Hwf Hord Hnr Hcap high Hcover.
  pose proof (pow2_le_30 _ Hord) as Hu.
  pose proof Hwf as (Hl & Hh & Hlmax & Hhmax). unfold INT_MAX in *.
  assert (Hhigh_eq : (if kswapd then true else negb (Z.land gfp hm =? 0))
                     = high)
    by (subst high; destruct kswapd; reflexivity).
  unfold ion_page_pool_shrink. rewrite Hhigh_eq.
  destruct (nr_to_scan =? 0) eqn:Hz; [apply Z.eqb_eq in Hz; lia |].
  destruct (shrink_loop_spec ps (shrink_fuel pool) pool high nr_to_scan 0 g
              Hwf Hord ltac:(unfold shrink_fuel; lia) ltac:(lia) Hcap)
    as (k & j & g' & Hrun & Hk & Hj & Hhigh & _ & Hstop & _).
  rewrite Z.add_0_l in *.
  assert (Hkj : k = length (low_items pool) /\
                j = if high then length (high_items pool) else 0%nat).
  { destruct high.
    - destruct Hstop as [Hs | [Hs [Hs' | Hs']]]; try discriminate;
        [| split; assumption].
      assert (Z.of_nat (length (low_items pool))
              + Z.of_nat (length (high_items pool)) <= Z.of_nat (k + j))
        by nia.
      lia.
    - assert (j = 0%nat).
      { destruct j; [reflexivity |].
        destruct (Hhigh ltac:(lia)) as [_ Hf]. discriminate. }
      subst j. split; [| reflexivity].
      destruct Hstop as [Hs | [Hs _]]; [| exact Hs].
      rewrite Z.add_0_r in Hcover.
      assert (Z.of_nat (length (low_items pool)) <= Z.of_nat (k + 0))
        by nia.
      lia. }
  destruct Hkj as [-> ->].
  exists (unlinked pool (length (low_items pool))
                   (if high then length (high_items pool) else 0%nat)), g'.
  rewrite Hrun, (total_wf pool high Hwf Hord) by lia.
  split; [do 3 f_equal; destruct high; lia |].
  cbn [unlinked low_items low_count high_items high_count].
  rewrite skipn_all. split; [reflexivity |]. split; [lia |].
  split.
  - destruct high; [rewrite skipn_all; split; [reflexivity | lia] |].
    cbn [skipn]. split; [reflexivity | lia].
  - cbn [Z.eqb]. do 3 f_equal. unfold ion_page_pool_total.
    cbn [unlinked low_count high_count order].
    replace (low_count pool - Z.of_nat (length (low_items pool))) with 0
      by lia.
    destruct high.
    + replace (high_count pool - Z.of_nat (length (high_items pool)))
        with 0 by lia.
      change (wrap_int (0 + 0)) with 0.
      rewrite Z.shiftl_0_l. reflexivity.
    + rewrite Z.shiftl_0_l. reflexivity.
Qed.

Lemma shrink_full_drain_witness :
  exists pool' g',
    ion_page_pool_shrink 12 2 sample_pool 0 64 true sample_globals
    = Ok (20, pool', g') /\
    low_items pool' = [] /\ high_items pool' = [].
Proof.
  destruct (shrink_full_drain 12 2 sample_pool 0 64 true sample_globals)
    as (pool' & g' & Hrun & Hlow & _ & Hhigh & _).
  - unfold pool_wf, INT_MAX. cbn. lia.
  - cbn. lia.
  - lia.
  - cbn. lia.
  - cbn. lia.
  - exists pool', g'. cbn in Hhigh. destruct Hhigh as [Hhigh _].
    split; [exact Hrun | split; assumption].
Defined.

(** X18: shrink returns what it took and loses nothing.  Under the
    conditions of the shrinker theorem, with the pages of the pool fitting
    an [int], the value returned is the drop of ion_page_pool_total(pool,
    true) and of the global page counter (when that counter is in step),
    and every entry the pool held is either still in its list or has been
    handed to the page allocator, exactly once. *)
Theorem shrink_returns_what_it_took
        (ps hm : Z) pool gfp nr_to_scan kswapd g :
  pool_wf pool ->
  0 <= order pool <= 30 ->
  0 < nr_to_scan ->
  nr_to_scan + 2 ^ order pool <= 2 ^ 31 ->
  (low_count pool + high_count pool) * 2 ^ order pool < 2 ^ 31 ->
  exists r pool' g' gone_low gone_high,
    ion_page_pool_shrink ps hm pool gfp nr_to_scan kswapd g
    = Ok (r, pool', g') /\
    r = ion_page_pool_total pool true - ion_page_pool_total pool' true /\
    low_items pool = gone_low ++ low_items pool' /\
    high_items pool = gone_high ++ high_items pool' /\
    buddy_log g'
    = buddy_log g
      ++ map (fun pg => Free_pages pg (order pool)) (gone_low ++ gone_high) /\
    (nr_total_pages g
     = (low_count pool + high_count pool) * 2 ^ order pool ->
     nr_total_pages g' = nr_total_pages g - r).
Proof.
  intros Hwf Hord Hnr Hcap Hfit.
  pose proof (pow2_le_30 _ Hord) as Hu.
  pose proof Hwf as (Hl & Hh & Hlmax & Hhmax). unfold INT_MAX in *.
  unfold ion_page_pool_shrink.
  destruct (nr_to_scan =? 0) eqn:Hz; [apply Z.eqb_eq in Hz; lia |].
  set (high := if kswapd then true else negb (Z.land gfp hm =? 0)).
  destruct (shrink_loop_spec ps (shrink_fuel pool) pool high nr_to_scan 0 g
              Hwf Hord ltac:(unfold shrink_fuel; lia) ltac:(lia) Hcap)
    as (k & j & g' & Hrun & Hk & Hj & _ & Hlog & _ & _).
  destruct (shrink_loop_unlinks ps (shrink_fuel pool) pool high nr_to_scan
              0 g Hwf ltac:(unfold shrink_fuel; lia))
    as (r2 & k2 & j2 & g2 & Hrun2 & _ & _ & Hacc).
  rewrite Hrun in Hrun2.
  assert (Hg : g' = g2).
  { apply (f_equal (fun res => match res with
                               | Ok (_, _, g0) => g0
                               | Fault _ => g
                               end)) in Hrun2. exact Hrun2. }
  assert (Hlc : low_count (unlinked pool k j)
                = low_count (unlinked pool k2 j2)).
  { apply (f_equal (fun res => match res with
                               | Ok (_, p, _) => low_count p
                               | Fault _ => 0
                               end)) in Hrun2. exact Hrun2. }
  assert (Hhc : high_count (unlinked pool k j)
                = high_count (unlinked pool k2 j2)).
  { apply (f_equal (fun res => match res with
                               | Ok (_, p, _) => high_count p
                               | Fault _ => 0
                               end)) in Hrun2. exact Hrun2. }
  subst g2. clear Hrun2.
  assert (Hkj : Z.of_nat (k2 + j2) = Z.of_nat (k + j))
    by (cbn [unlinked low_count high_count] in Hlc, Hhc; lia).
  rewrite Z.add_0_l in *.
  exists (Z.of_nat (k + j) * 2 ^ order pool), (unlinked pool k j), g',
    (firstn k (low_items pool)), (firstn j (high_items pool)).
  split; [exact Hrun |].
  split.
  - rewrite (total_wf pool true Hwf Hord Hfit).
    rewrite (total_wf (unlinked pool k j) true)
      by (try apply unlinked_wf; try assumption;
          cbn [unlinked low_count high_count order]; nia).
    cbn [unlinked low_count high_count order].
    rewrite Nat2Z.inj_add. ring.
  - cbn [unlinked low_items high_items].
    rewrite !firstn_skipn.
    split; [reflexivity |]. split; [reflexivity |].
    split; [exact Hlog |].
    intros Hstep. rewrite (Hacc Hord Hstep), Hkj. reflexivity.
Qed.

Lemma shrink_returns_what_it_took_witness :
  exists r pool' g',
    ion_page_pool_shrink 12 2 sample_pool 0 6 false sample_globals
    = Ok (r, pool', g') /\
    r = 20 - ion_page_pool_total pool' true /\
    nr_total_pages g' = 20 - r.
Proof.
  destruct (shrink_returns_what_it_took 12 2 sample_pool 0 6 false
              sample_globals)
    as (r & pool' & g' & gl & gh & Hrun & Hr & _ & _ & _ & Hnr).
  - unfold pool_wf, INT_MAX. cbn. lia.
  - cbn. lia.
  - lia.
  - cbn. lia.
  - cbn. lia.
  - exists r, pool', g'. split; [exact Hrun |]. split; [exact Hr |].
    apply Hnr. reflexivity.
Defined.

Lemma wrap_long_cancel (n a : Z) :
  LONG_MIN <= n <= LONG_MAX -> wrap_long (wrap_long (n + a) + - a) = n.
Proof.
  intros Hn. unfold LONG_MIN, LONG_MAX in Hn. unfold wrap_long.
  replace ((n + a + 2 ^ 63) mod 2 ^ 64 - 2 ^ 63 + - a + 2 ^ 63)
    with ((n + a + 2 ^ 63) mod 2 ^ 64 - a) by ring.
  rewrite Zminus_mod_idemp_l.
  replace (n + a + 2 ^ 63 - a) with (n + 2 ^ 63) by ring.
  rewrite Z.mod_small; lia.
Qed.

(** X19: free then alloc_pool_only is a round trip on an empty tier.  If
    the tier a page belongs to is empty, and for a low page the high tier
    is empty too, then freeing the page and taking from the pool gives that
    very page back and restores the pool, the global page counter, the
    node counter and the allocator log to what they were. *)
Theorem free_alloc_pool_only_round_trip (ps : Z) pool pg g :
  pool_wf pool ->
  high_items pool = [] ->
  (PageHighMem pg = false -> low_items pool = []) ->
  0 <= ps + order pool <= 30 ->
  LONG_MIN <= nr_total_pages g <= LONG_MAX ->
  LONG_MIN <= nr_indirectly_reclaimable_bytes g <= LONG_MAX ->
  ion_page_pool_alloc_pool_only
    ps (Some (fst (ion_page_pool_free ps pool pg g))) true
    (snd (ion_page_pool_free ps pool pg g))
  = Ok (Page pg, Some pool, g).
Proof.
  intros (Hl & Hh & _ & _) Hhigh Hlow Hshift Hnr Hbytes.
  assert (Hy : shl1 (ps + order pool) = 2 ^ (ps + order pool))
    by (apply shl1_pow; exact Hshift).
  pose proof (pow2_le_30 _ Hshift) as Hu.
  assert (Hg : account (account g (shl1 (order pool))
                                (shl1 (ps + order pool)))
                       (- shl1 (order pool))
                       (wrap_int (- shl1 (ps + order pool))) = g).
  { unfold account. cbn [nr_total_pages nr_indirectly_reclaimable_bytes
                         buddy_log].
    rewrite Hy, (wrap_int_id (- 2 ^ (ps + order pool))) by lia.
    rewrite !wrap_long_cancel by assumption. destruct g; reflexivity. }
  destruct pool as [hc lc his los gfp ord c].
  cbn [high_items low_items high_count low_count order length] in *.
  subst his. cbn [length] in Hh. subst hc.
  unfold ion_page_pool_free, ion_page_pool_add.
  destruct (PageHighMem pg) eqn:Hmem; cbn [fst snd].
  - unfold ion_page_pool_alloc_pool_only, ion_page_pool_remove.
    cbn [high_count low_count high_items low_items order gfp_mask cached
         app bind negb Z.eqb].
    change (wrap_int (0 + 1) =? 0) with false. cbn [negb bind].
    change (wrap_int (wrap_int (0 + 1) - 1)) with 0.
    rewrite Hg. reflexivity.
  - rewrite (Hlow eq_refl) in *. cbn [length] in Hl. subst lc.
    unfold ion_page_pool_alloc_pool_only, ion_page_pool_remove.
    cbn [high_count low_count high_items low_items order gfp_mask cached
         app bind negb Z.eqb].
    change (wrap_int (0 + 1) =? 0) with false. cbn [negb bind].
    change (wrap_int (wrap_int (0 + 1) - 1)) with 0.
    rewrite Hg. reflexivity.
Qed.

Lemma free_alloc_pool_only_round_trip_witness :
  let pool := {| high_count := 0; low_count := 2;
                 high_items := []; low_items := [lo 1; lo 2];
                 gfp_mask := 0; order := 1; cached := true |} in
  ion_page_pool_alloc_pool_only
    12 (Some (fst (ion_page_pool_free 12 pool (hi 7) sample_globals))) true
    (snd (ion_page_pool_free 12 pool (hi 7) sample_globals))
  = Ok (Page (hi 7), Some pool, sample_globals).
Proof.
  apply free_alloc_pool_only_round_trip.
  - unfold pool_wf, INT_MAX. cbn. lia.
  - reflexivity.
  - discriminate.
  - cbn. lia.
  - unfold LONG_MIN, LONG_MAX. cbn. lia.
  - unfold LONG_MIN, LONG_MAX. cbn. lia.
Defined.

(** X20: creation fails exactly when kmalloc() does, and a pool just
    created is empty and well-formed with the order and gfp mask asked for:
    its totals are 0, alloc_pool_only finds nothing in it and shrink, with
    any budget and privilege, returns 0 and frees nothing.  [cached] is
    set when asked for; when not asked for the field is never written and
    keeps what the memory held. *)
Theorem create_gives_empty_pool
        (ps hm gfp ord : Z) (cached_arg kmalloc_ok stale : bool) g :
  (ion_page_pool_create gfp ord cached_arg kmalloc_ok stale = None <->
   kmalloc_ok = false) /\
  (forall pool,
     ion_page_pool_create gfp ord cached_arg kmalloc_ok stale = Some pool ->
     pool_wf pool /\ order pool = ord /\ gfp_mask pool = gfp /\
     cached pool = (if cached_arg then true else stale) /\
     ion_page_pool_total pool true = 0 /\
     ion_page_pool_total pool false = 0 /\
     ion_page_pool_alloc_pool_only ps (Some pool) true g
     = Ok (ERR_PTR ENOMEM, Some pool, g) /\
     forall gfp' nr_to_scan kswapd,
       ion_page_pool_shrink ps hm pool gfp' nr_to_scan kswapd g
       = Ok (0, pool, g)).
Proof.
  unfold ion_page_pool_create. destruct kmalloc_ok.
  - split; [split; discriminate |].
    intros pool H. injection H as <-.
    assert (Htotal : forall high,
      ion_page_pool_total
        {| high_count := 0; low_count := 0; high_items := [];
           low_items := []; gfp_mask := gfp; order := ord;
           cached := if cached_arg then true else stale |} high = 0).
    { intros high. unfold ion_page_pool_total.
      cbn [low_count high_count order].
      destruct high; [change (wrap_int (0 + 0)) with 0 |];
        rewrite Z.shiftl_0_l; reflexivity. }
    split; [unfold pool_wf, INT_MAX; cbn; lia |].
    repeat (split; [reflexivity || apply Htotal |]).
    intros gfp' nr kswapd. unfold ion_page_pool_shrink.
    destruct (nr =? 0); [rewrite Htotal; reflexivity |].
    cbn. destruct (0 <? nr);
      destruct (if kswapd then true else negb (Z.land gfp' hm =? 0));
      reflexivity.
  - split; [split; reflexivity |]. discriminate.
Qed.

Lemma create_gives_empty_pool_witness :
  exists pool,
    ion_page_pool_create 0 3 false true true = Some pool /\
    cached pool = true /\
    ion_page_pool_shrink 12 2 pool 2 100 true sample_globals
    = Ok (0, pool, sample_globals).
Proof.
  eexists. split; [reflexivity |].
  destruct (proj2 (create_gives_empty_pool 12 2 0 3 false true true
                     sample_globals) _ eq_refl)
    as (_ & _ & _ & Hcached & _ & _ & _ & Hshrink).
  split; [exact Hcached | apply Hshrink].
Defined.

(** X21: a negative budget is not a query.  With nr_to_scan below zero
    shrink returns 0 and touches nothing, on any pool whatever it holds,
    whereas nr_to_scan = 0 returns the total. *)
Theorem shrink_negative_budget (ps hm : Z) pool gfp nr_to_scan kswapd g :
  nr_to_scan < 0 ->
  ion_page_pool_shrink ps hm pool gfp nr_to_scan kswapd g = Ok (0, pool, g).
Proof.
  intros Hneg. unfold ion_page_pool_shrink, shrink_fuel.
  replace (nr_to_scan =? 0) with false by (symmetry; apply Z.eqb_neq; lia).
  cbn [shrink_loop].
  replace (0 <? nr_to_scan) with false by (symmetry; apply Z.ltb_ge; lia).
  reflexivity.
Qed.

Lemma shrink_negative_budget_witness :
  ion_page_pool_shrink 12 2 sample_pool 0 (-4) true sample_globals
  = Ok (0, sample_pool, sample_globals).
Proof. apply shrink_negative_budget. lia. Defined.

End IonPagePoolSpec.
